(** * CampusBites: the environment validation script and the order routes

    A shallow embedding of [server/validate-env.js] and of the order route
    file that follows it.  The script is sequential code over two global
    counters and the console; it is embedded as state-passing code in a small
    monad with exceptions and [process.exit].  Everything the script asks of
    the outside (the process environment, mongoose, cloudinary, fetch, the
    clock) is a field of a [World] record, so every theorem quantifies over
    all behaviours of these collaborators. *)

From Stdlib Require Import ZArith List Bool Lia.
From Stdlib Require Import Floats.SpecFloat DecimalString.
From stdpp Require Import base option gmap strings.
Import ListNotations.

Open Scope Z_scope.

(** ** JavaScript strings

    A JavaScript string is a sequence of UTF-16 code units; [length],
    [slice], [includes], [split] and [===] all work on code units.  A code
    unit is kept as an [N]. *)

Abbreviation jsstring := (list N).

(** An ASCII literal of the source, as code units. *)
Definition u (s : string) : jsstring :=
  map Ascii.N_of_ascii (String.list_ascii_of_string s).

Arguments u : simpl never.

(** [s.length] *)
Definition js_length (s : jsstring) : Z := Z.of_nat (length s).

(** The truth value of [process.env.X]: [undefined] and the empty string
    are falsy, every other string is truthy. *)
Definition truthy (v : option jsstring) : bool :=
  match v with
  | Some (_ :: _) => true
  | _ => false
  end.

Definition jsstring_eqb (a b : jsstring) : bool :=
  bool_decide (a = b).

(** [s.slice(start)]: a negative [start] counts from the end and is clamped
    at the beginning of the string. *)
Definition slice (start : Z) (s : jsstring) : jsstring :=
  let len := js_length s in
  let from := if start <? 0 then Z.max (len + start) 0 else Z.min start len in
  skipn (Z.to_nat from) s.

Fixpoint starts_with (p s : jsstring) : bool :=
  match p, s with
  | [], _ => true
  | _ :: _, [] => false
  | a :: p', b :: s' => N.eqb a b && starts_with p' s'
  end.

(** [s.includes(search)] *)
Fixpoint includes (search s : jsstring) : bool :=
  starts_with search s
  || match s with
     | [] => false
     | _ :: s' => includes search s'
     end.

(** [s.split(c)] for a separator [c] of one code unit. *)
Fixpoint split_on (c : N) (s : jsstring) : list jsstring :=
  match s with
  | [] => [[]]
  | a :: s' =>
      if N.eqb a c then [] :: split_on c s'
      else match split_on c s' with
           | [] => [[a]]
           | x :: rest => (a :: x) :: rest
           end
  end.

(** A value placed in a template literal; [undefined] prints as such. *)
Definition tpl (v : option jsstring) : jsstring :=
  match v with
  | Some s => s
  | None => u "undefined"
  end.

(** The decimal digits of an integer, as [String(n)] gives them. *)
Definition digits (n : Z) : jsstring :=
  u (NilZero.string_of_int (Z.to_int n)).

(** ** JavaScript numbers

    Numbers are IEEE 754 binary64 values, taken from the specification of
    floating-point numbers of the standard library.  The two counters only
    ever hold small non-negative integers (a run makes at most 20
    increments, see [script_runs]), which binary64 represents
    exactly, so the counters themselves are kept as [Z]; the division, the
    product and the rounding of the success rate are done in binary64. *)

Definition prec : Z := 53.
Definition emax : Z := 1024.

Definition num (z : Z) : spec_float := binary_normalize prec emax z 0 false.
Definition js_div : spec_float -> spec_float -> spec_float := SFdiv prec emax.
Definition js_mul : spec_float -> spec_float -> spec_float := SFmul prec emax.

(** [a >= b] on numbers: false when either side is NaN. *)
Definition js_ge (a b : spec_float) : bool := SFleb b a.

(** The digits of [n] with a decimal point before the last [f] of them,
    padded with zeros on the left up to [f + 1] digits: steps 10.b to 10.d
    of [Number.prototype.toFixed]. *)
Definition fixed_point (f : nat) (n : Z) : jsstring :=
  let m := if n =? 0 then u "0" else digits n in
  match f with
  | O => m
  | _ =>
      let k := length m in
      let m := repeat 48%N (S f - k) ++ m in
      let k := length m in
      firstn (k - f) m ++ u "." ++ skipn (k - f) m
  end.

(** [x.toFixed(f)].  The mathematical value of a finite [x] is
    [m * 2 ^ e]; the integer [n] for which [n / 10 ^ f] is closest to it,
    the larger one on a tie, is [floor (x * 10 ^ f + 1/2)].  A value of
    [10 ^ 21] or more is printed by [Number::toString] in exponent
    notation, which is not modelled: the result is [None] there. *)
Definition toFixed (f : nat) (x : spec_float) : option jsstring :=
  match x with
  | S754_nan => Some (u "NaN")
  | S754_infinity false => Some (u "Infinity")
  | S754_infinity true => Some (u "-Infinity")
  | S754_zero _ => Some (fixed_point f 0)
  | S754_finite s m e =>
      let p10 := 10 ^ Z.of_nat f in
      if (if 0 <=? e then 10 ^ 21 <=? Zpos m * 2 ^ e
          else 10 ^ 21 * 2 ^ (- e) <=? Zpos m)
      then None
      else
        let n := if 0 <=? e then Zpos m * 2 ^ e * p10
                 else (2 * Zpos m * p10 + 2 ^ (- e)) / (2 * 2 ^ (- e)) in
        Some ((if s then u "-" else []) ++ fixed_point f n)
  end.

(** [String(x)] for the numbers whose printing needs no shortest-digits
    search: NaN, the infinities, the zeros and the integers below
    [10 ^ 21].  [None] elsewhere. *)
Definition Number_toString (x : spec_float) : option jsstring :=
  match x with
  | S754_nan => Some (u "NaN")
  | S754_infinity false => Some (u "Infinity")
  | S754_infinity true => Some (u "-Infinity")
  | S754_zero _ => Some (u "0")
  | S754_finite s m e =>
      if (0 <=? e) && (Zpos m * 2 ^ e <? 10 ^ 21)
      then Some ((if s then u "-" else []) ++ digits (Zpos m * 2 ^ e))
      else if (e <? 0) && (Zpos m mod 2 ^ (- e) =? 0)
      then Some ((if s then u "-" else []) ++ digits (Zpos m / 2 ^ (- e)))
      else None
  end.

Definition digit_value (c : N) : option Z :=
  if (48 <=? c)%N && (c <=? 57)%N then Some (Z.of_N c - 48) else None.

Fixpoint decimal_value (acc : Z) (s : jsstring) : option Z :=
  match s with
  | [] => Some acc
  | c :: s' =>
      match digit_value c with
      | Some d => decimal_value (10 * acc + d) s'
      | None => None
      end
  end.

(** [Number(s)] for the strings [toFixed] produces: an optional sign,
    digits, and optionally a point and more digits.  The value
    [num / 10 ^ k] is rounded once to binary64, which the division does
    when [num] and [10 ^ k] are themselves binary64 integers; other strings
    are outside the model ([None]). *)
Definition String_toNumber (s : jsstring) : option spec_float :=
  if jsstring_eqb s (u "NaN") then Some S754_nan
  else if jsstring_eqb s (u "Infinity") then Some (S754_infinity false)
  else if jsstring_eqb s (u "-Infinity") then Some (S754_infinity true)
  else
    let '(neg, body) :=
      match s with
      | 45%N :: body => (true, body)
      | _ => (false, s)
      end in
    let '(ip, fp) :=
      match split_on 46 body with
      | [ip] => (Some ip, Some [])
      | [ip; fp] => (Some ip, match fp with [] => None | _ => Some fp end)
      | _ => (None, None)
      end in
    match ip, fp with
    | Some (c :: ip'), Some fp =>
        match decimal_value 0 (c :: ip' ++ fp) with
        | Some n =>
            let k := Z.of_nat (length fp) in
            if (n <? 2 ^ 53) && (k <=? 22)
            then
              let x := js_div (num n) (num (10 ^ k)) in
              Some (if neg then SFopp x else x)
            else None
        | None => None
        end
    | _, _ => None
    end.

(** A value that is either a number or a string, as [passPercentage] is. *)
Inductive jsval :=
| JNumber (x : spec_float)
| JString (s : jsstring).

Definition ToNumber (v : jsval) : option spec_float :=
  match v with
  | JNumber x => Some x
  | JString s => String_toNumber s
  end.

Definition ToString (v : jsval) : option jsstring :=
  match v with
  | JNumber x => Number_toString x
  | JString s => Some s
  end.

(** ** The script's state, its collaborators and its control flow *)

Inductive color := reset | green | red | yellow | blue | cyan.

(** The table [colors]: ANSI escape sequences. *)
Definition colors (c : color) : jsstring :=
  27%N :: u match c with
            | reset => "[0m"
            | green => "[32m"
            | red => "[31m"
            | yellow => "[33m"
            | blue => "[34m"
            | cyan => "[36m"
            end.

Definition BASE_URL : jsstring := u "http://localhost:8080".

(** The module-level counters, and the lines written by [console.log]
    (oldest first). *)
Record State := mkState {
  testsPassed : Z;
  testsFailed : Z;
  console : list jsstring
}.

Definition initial : State := mkState 0 0 [].

(** A thrown or rejected value: an object whose [message] property is a
    string or is missing (cloudinary rejects with objects that have no
    [message]). *)
Record JsError := mkError { message : option jsstring }.

(** How an awaited promise settles. *)
Inductive settled (A : Type) :=
| Fulfilled (a : A)
| Rejected (e : JsError).

Arguments Fulfilled {A} a.
Arguments Rejected {A} e.

Record Response := mkResponse { status : Z }.

(** [response.ok], as node-fetch defines it. *)
Definition ok (r : Response) : bool := (200 <=? status r) && (status r <? 300).

Record RequestInit := mkInit {
  method : jsstring;
  headers : list (jsstring * jsstring);
  body : option jsstring
}.

(** Everything outside the script. *)
Record World := mkWorld {
  process_env : gmap string (list N);
  mongoose_connect : jsstring -> settled unit;
  mongoose_disconnect : settled unit;
  cloudinary_usage : jsstring -> jsstring -> jsstring -> settled unit;
  fetch : jsstring -> RequestInit -> settled Response;
  Date_toLocaleString : jsstring
}.

(** How a piece of code completes: normally, by throwing, or by
    [process.exit]; [Unmodelled] marks a library result that this
    development does not define (see [toFixed]). *)
Inductive completion (A : Type) :=
| Normal (a : A) (s : State)
| Abrupt (e : JsError) (s : State)
| Exit (code : Z) (s : State)
| Unmodelled.

Arguments Normal {A} a s.
Arguments Abrupt {A} e s.
Arguments Exit {A} code s.
Arguments Unmodelled {A}.

Definition M (A : Type) : Type := State -> completion A.

Definition ret {A} (a : A) : M A := fun s => Normal a s.

Definition bind {A B} (m : M A) (k : A -> M B) : M B :=
  fun s =>
    match m s with
    | Normal a s' => k a s'
    | Abrupt e s' => Abrupt e s'
    | Exit c s' => Exit c s'
    | Unmodelled => Unmodelled
    end.

Declare Scope js_scope.
Delimit Scope js_scope with js.
Notation "x <- m ;; k" := (bind m (fun x => k))
  (at level 100, m at next level, right associativity) : js_scope.
Notation "m ;; k" := (bind m (fun _ => k))
  (at level 100, right associativity) : js_scope.
Open Scope js_scope.

(** [try { body } catch (error) { handler }]; [process.exit] is not an
    exception and is not caught. *)
Definition try_catch {A} (body : M A) (handler : JsError -> M A) : M A :=
  fun s =>
    match body s with
    | Abrupt e s' => handler e s'
    | r => r
    end.

(** [await p] *)
Definition await {A} (p : settled A) : M A :=
  fun s =>
    match p with
    | Fulfilled a => Normal a s
    | Rejected e => Abrupt e s
    end.

Definition process_exit (code : Z) : M unit := fun s => Exit code s.

(** A library result the development leaves undefined. *)
Definition defined {A} (o : option A) : M A :=
  fun s =>
    match o with
    | Some a => Normal a s
    | None => Unmodelled
    end.

(** [log(message, color)] *)
Definition log (msg : jsstring) (c : color) : M unit :=
  fun s =>
    Normal tt (mkState (testsPassed s) (testsFailed s)
                 (console s ++ [colors c ++ msg ++ colors reset])).

(** [testsPassed++] and [testsFailed++] *)
Definition passed_incr : M unit :=
  fun s => Normal tt (mkState (testsPassed s + 1) (testsFailed s) (console s)).

Definition failed_incr : M unit :=
  fun s => Normal tt (mkState (testsPassed s) (testsFailed s + 1) (console s)).

(** [xs.forEach(f)] and [for (const x of xs) f(x)] *)
Fixpoint for_each {A} (xs : list A) (f : A -> M unit) : M unit :=
  match xs with
  | [] => ret tt
  | x :: xs' => f x ;; for_each xs' f
  end.

(** Pieces of the messages that are not ASCII. *)
Definition rule : jsstring := repeat 9552%N 43.
Definition nl : jsstring := [10%N].
Definition check_mark : jsstring := [9989%N].
Definition cross_mark : jsstring := [10060%N].
Definition warning_sign : jsstring := [9888%N; 65039%N].

(** The three lines that open every section of the output. *)
Definition header (icon : jsstring) (title : string) : M unit :=
  log (nl ++ rule) cyan ;;
  log (icon ++ u title) blue ;;
  log (rule ++ nl) cyan.

(** The string held by a value that has just been tested to be truthy. *)
Definition str (v : option jsstring) : jsstring :=
  match v with
  | Some s => s
  | None => []
  end.

(** Reading the counters. *)
Definition get_testsPassed : M Z := fun s => Normal (testsPassed s) s.
Definition get_testsFailed : M Z := fun s => Normal (testsFailed s) s.

(** ** testEnvironmentVariables *)

Record EnvVar := mkEnvVar {
  name : string;
  required : bool;
  sensitive : bool
}.

Definition envVars : list EnvVar :=
  [ mkEnvVar "MONGODB_URI" true true;
    mkEnvVar "FRONTEND_URL" true false;
    mkEnvVar "CLODINARY_CLOUD_NAME" true false;
    mkEnvVar "CLODINARY_API_KEY" true false;
    mkEnvVar "CLODINARY_API_SECRET_KEY" true true;
    mkEnvVar "RESEND_API" true true;
    mkEnvVar "SECRET_KEY_ACCESS_TOKEN" true true;
    mkEnvVar "SECRET_KEY_REFRESH_TOKEN" true true;
    mkEnvVar "PORT" false false;
    mkEnvVar "STRIPE_SECRET_KEY" false true ].

(** [displayValue] of the callback below. *)
Definition displayValue (envVar : EnvVar) (value : option jsstring) : jsstring :=
  if truthy value
  then (if sensitive envVar then u "***" ++ slice (-4) (str value) else str value)
  else u "NOT SET".

(** The callback given to [envVars.forEach]. *)
Definition envVar_callback (w : World) (envVar : EnvVar) : M unit :=
  let value := process_env w !! name envVar in
  let status := if truthy value then check_mark else cross_mark in
  let requirement := if required envVar then u "[REQUIRED]" else u "[OPTIONAL]" in
  log (status ++ u " " ++ u (name envVar) ++ u " " ++ requirement)
      (if truthy value then green else red) ;;
  log (u "   Value: " ++ displayValue envVar value ++ nl)
      (if truthy value then green else red) ;;
  if truthy value then passed_incr
  else if required envVar then failed_incr
  else ret tt.

Definition testEnvironmentVariables (w : World) : M unit :=
  header [55357%N; 56589%N] " TESTING ENVIRONMENT VARIABLES" ;;
  for_each envVars (envVar_callback w).

(** ** testMongoDBConnection

    The early [return] of the source is the first branch of the
    conditional; the rest of the [try] block is the other branch.  The
    timeouts given to [mongoose.connect] are part of how the world answers. *)
Definition testMongoDBConnection (w : World) : M unit :=
  header [55357%N; 56772%N; 65039%N] "  TESTING MONGODB CONNECTION" ;;
  try_catch
    (let mongoUri := process_env w !! "MONGODB_URI" in
     if negb (truthy mongoUri) then
       log (cross_mark ++ u " MONGODB_URI not configured") red ;;
       failed_incr
     else
       log (u "Attempting connection...") yellow ;;
       await (mongoose_connect w (str mongoUri)) ;;
       log (check_mark ++ u " MongoDB Connection: SUCCESS") green ;;
       log (u "   Connected to: " ++ tpl (split_on 64 (str mongoUri) !! 1%nat)) green ;;
       passed_incr ;;
       await (mongoose_disconnect w))
    (fun error =>
       log (cross_mark ++ u " MongoDB Connection: FAILED") red ;;
       log (u "   Error: " ++ tpl (message error)) red ;;
       failed_incr).

(** ** testCloudinaryAPI

    [cloudinary.config] only stores the three credentials; the call that can
    fail is [cloudinary.api.usage()], made with them. *)
Definition testCloudinaryAPI (w : World) : M unit :=
  header [9729%N; 65039%N] "  TESTING CLOUDINARY API" ;;
  try_catch
    (let cloudName := process_env w !! "CLODINARY_CLOUD_NAME" in
     let apiKey := process_env w !! "CLODINARY_API_KEY" in
     let apiSecret := process_env w !! "CLODINARY_API_SECRET_KEY" in
     if negb (truthy cloudName) || negb (truthy apiKey) || negb (truthy apiSecret) then
       log (cross_mark ++ u " Cloudinary credentials not configured") red ;;
       failed_incr
     else
       log (u "Testing Cloudinary configuration...") yellow ;;
       await (cloudinary_usage w (str cloudName) (str apiKey) (str apiSecret)) ;;
       log (check_mark ++ u " Cloudinary API: SUCCESS") green ;;
       log (u "   Cloud Name: " ++ str cloudName) green ;;
       log (u "   API Key: ***" ++ slice (-4) (str apiKey)) green ;;
       log (u "   Account Status: Active") green ;;
       passed_incr)
    (fun error =>
       log (cross_mark ++ u " Cloudinary API: FAILED") red ;;
       log (u "   Error: " ++ tpl (message error)) red ;;
       failed_incr).

(** ** testResendAPI *)

(** The options of the one request the check makes. *)
Definition resend_options (resendApi : jsstring) : RequestInit :=
  mkInit (u "GET")
    [ (u "Authorization", u "Bearer " ++ resendApi);
      (u "Content-Type", u "application/json") ]
    None.

Definition testResendAPI (w : World) : M unit :=
  header [55357%N; 56551%N] " TESTING RESEND EMAIL API" ;;
  try_catch
    (let resendApi := process_env w !! "RESEND_API" in
     if negb (truthy resendApi) then
       log (cross_mark ++ u " RESEND_API not configured") red ;;
       failed_incr
     else
       log (u "Testing Resend API connection...") yellow ;;
       response <- await (fetch w (u "https://api.resend.com/emails")
                            (resend_options (str resendApi))) ;;
       if ok response || (status response =? 200) || (status response =? 401) then
         log (check_mark ++ u " Resend Email API: SUCCESS") green ;;
         log (u "   API Key: re_***" ++ slice (-8) (str resendApi)) green ;;
         log (u "   Status: Accessible") green ;;
         passed_incr
       else
         log (cross_mark ++ u " Resend Email API: FAILED") red ;;
         log (u "   Status Code: " ++ digits (status response)) red ;;
         failed_incr)
    (fun error =>
       log (cross_mark ++ u " Resend Email API: FAILED") red ;;
       log (u "   Error: " ++ tpl (message error)) red ;;
       failed_incr).

(** ** testJWTSecrets *)
Definition testJWTSecrets (w : World) : M unit :=
  header [55357%N; 56592%N] " TESTING JWT SECRETS" ;;
  try_catch
    (let accessToken := process_env w !! "SECRET_KEY_ACCESS_TOKEN" in
     let refreshToken := process_env w !! "SECRET_KEY_REFRESH_TOKEN" in
     if negb (truthy accessToken) || negb (truthy refreshToken) then
       log (cross_mark ++ u " JWT Secrets not configured") red ;;
       failed_incr
     else
       let accessTokenValid := 20 <=? js_length (str accessToken) in
       let refreshTokenValid := 20 <=? js_length (str refreshToken) in
       (if accessTokenValid then
          log (check_mark ++ u " SECRET_KEY_ACCESS_TOKEN: VALID") green ;;
          log (u "   Length: " ++ digits (js_length (str accessToken)) ++ u " characters") green ;;
          passed_incr
        else
          log (warning_sign ++ u "  SECRET_KEY_ACCESS_TOKEN: TOO SHORT") yellow ;;
          log (u "   Length: " ++ digits (js_length (str accessToken))
                 ++ u " characters (recommended: 20+)") yellow ;;
          failed_incr) ;;
       (if refreshTokenValid then
          log (check_mark ++ u " SECRET_KEY_REFRESH_TOKEN: VALID") green ;;
          log (u "   Length: " ++ digits (js_length (str refreshToken)) ++ u " characters") green ;;
          passed_incr
        else
          log (warning_sign ++ u "  SECRET_KEY_REFRESH_TOKEN: TOO SHORT") yellow ;;
          log (u "   Length: " ++ digits (js_length (str refreshToken))
                 ++ u " characters (recommended: 20+)") yellow ;;
          failed_incr))
    (fun error =>
       log (cross_mark ++ u " JWT Secrets: ERROR") red ;;
       log (u "   Error: " ++ tpl (message error)) red ;;
       failed_incr).

(** ** testAPIEndpoints

    [ep_body] holds what [JSON.stringify] gives for the endpoint's [body]
    object, if it has one. *)
Record Endpoint := mkEndpoint {
  ep_method : jsstring;
  ep_path : jsstring;
  ep_description : jsstring;
  ep_body : option jsstring
}.

Definition quoted (s : jsstring) : jsstring := [34%N] ++ s ++ [34%N].

Definition endpoints : list Endpoint :=
  [ mkEndpoint (u "GET") (u "/") (u "Health Check") None;
    mkEndpoint (u "GET") (u "/api/category/get") (u "Get Categories") None;
    mkEndpoint (u "POST") (u "/api/product/get") (u "Get Products")
      (Some (u "{" ++ quoted (u "skip") ++ u ":0," ++ quoted (u "limit") ++ u ":10}")) ].

(** The [options] object built in the loop: the body is added when the
    endpoint has one and its method is POST. *)
Definition endpoint_options (endpoint : Endpoint) : RequestInit :=
  mkInit (ep_method endpoint)
    [ (u "Content-Type", u "application/json") ]
    (match ep_body endpoint with
     | Some json => if jsstring_eqb (ep_method endpoint) (u "POST") then Some json else None
     | None => None
     end).

(** The body of the loop over [endpoints]. *)
Definition endpoint_body (w : World) (endpoint : Endpoint) : M unit :=
  try_catch
    (log (u "Testing " ++ ep_method endpoint ++ u " " ++ ep_path endpoint ++ u "...") yellow ;;
     let options := endpoint_options endpoint in
     response <- await (fetch w (BASE_URL ++ ep_path endpoint) options) ;;
     if ok response then
       log (check_mark ++ u " " ++ ep_description endpoint ++ u ": SUCCESS ("
              ++ digits (status response) ++ u ")") green ;;
       passed_incr
     else
       log (warning_sign ++ u "  " ++ ep_description endpoint ++ u ": "
              ++ digits (status response)) yellow)
    (fun error =>
       log (cross_mark ++ u " " ++ ep_description endpoint ++ u ": FAILED") red ;;
       log (u "   Error: " ++ tpl (message error)) red ;;
       failed_incr).

Definition testAPIEndpoints (w : World) : M unit :=
  header [55357%N; 56960%N] " TESTING API ENDPOINTS" ;;
  for_each endpoints (endpoint_body w).

(** ** testCORSConfiguration *)
Definition testCORSConfiguration (w : World) : M unit :=
  header [55357%N; 56599%N] " TESTING CORS CONFIGURATION" ;;
  try_catch
    (let frontendUrl := process_env w !! "FRONTEND_URL" in
     if negb (truthy frontendUrl) then
       log (cross_mark ++ u " FRONTEND_URL not configured") red ;;
       failed_incr
     else
       log (u "FRONTEND_URL: " ++ str frontendUrl) cyan ;;
       if jsstring_eqb (str frontendUrl) (u "http://localhost:5173") then
         log (check_mark ++ u " CORS Configuration: VALID (Development)") green ;;
         log (u "   Frontend origin is correctly set to localhost:5173") green ;;
         passed_incr
       else if includes (u "vercel.app") (str frontendUrl)
               || includes (u "campusbites") (str frontendUrl) then
         log (check_mark ++ u " CORS Configuration: VALID (Production)") green ;;
         log (u "   Frontend origin: " ++ str frontendUrl) green ;;
         passed_incr
       else
         log (warning_sign ++ u "  CORS Configuration: UNUSUAL") yellow ;;
         log (u "   Frontend origin: " ++ str frontendUrl) yellow)
    (fun error =>
       log (cross_mark ++ u " CORS Configuration: ERROR") red ;;
       log (u "   Error: " ++ tpl (message error)) red ;;
       failed_incr).

(** ** generateReport *)

Definition all_passed_message : jsstring :=
  [55356%N; 57225%N] ++ u " ALL TESTS PASSED! Your environment is properly configured.".

Definition some_failed_message : jsstring :=
  warning_sign ++ u "  Some optional tests failed. Review above for details.".

Definition critical_message : jsstring :=
  cross_mark ++ u " Critical failures detected. Fix the issues above before deploying.".

(** [passPercentage]: a string from [toFixed] when a test was counted, the
    number 0 otherwise. *)
Definition passPercentage (passed total : Z) : option jsval :=
  if 0 <? total
  then JString <$> toFixed 2 (js_mul (js_div (num passed) (num total)) (num 100))
  else Some (JNumber (num 0)).

(** [passPercentage >= 80]: the left side is converted to a number first. *)
Definition at_least_80 (v : jsval) : option bool :=
  (fun x => js_ge x (num 80)) <$> ToNumber v.

Definition generateReport : M unit :=
  header [55357%N; 56522%N] " VALIDATION REPORT" ;;
  passed <- get_testsPassed ;;
  failed <- get_testsFailed ;;
  let totalTests := passed + failed in
  percentage <- defined (passPercentage passed totalTests) ;;
  log (u "Total Tests: " ++ digits totalTests) cyan ;;
  log (check_mark ++ u " Passed: " ++ digits passed) green ;;
  log (cross_mark ++ u " Failed: " ++ digits failed) red ;;
  shown <- defined (ToString percentage) ;;
  high <- defined (at_least_80 percentage) ;;
  log (u "Success Rate: " ++ shown ++ u "%" ++ nl) (if high then green else red) ;;
  (if failed =? 0 then log all_passed_message green
   else
     high <- defined (at_least_80 percentage) ;;
     if high then log some_failed_message yellow
     else log critical_message red) ;;
  log (nl ++ rule ++ nl) cyan.

(** ** runAllTests and the script

    [runAllTests_with] is [runAllTests] with the body of its [try] block
    left open, so that the [catch] can be studied for any sequence of
    checks. *)
Definition all_checks (w : World) : M unit :=
  testEnvironmentVariables w ;;
  testMongoDBConnection w ;;
  testCloudinaryAPI w ;;
  testResendAPI w ;;
  testJWTSecrets w ;;
  testCORSConfiguration w ;;
  testAPIEndpoints w ;;
  generateReport.

(** The five lines printed before the [try] block. *)
Definition banner (w : World) : M unit :=
  log (nl ++ nl) reset ;;
  log ([9556%N] ++ rule ++ [9559%N]) cyan ;;
  log ([9553%N] ++ u "   CampusBites API & ENV Validation       " ++ [9553%N]) cyan ;;
  log ([9553%N] ++ u "   Started: " ++ Date_toLocaleString w ++ u "       " ++ [9553%N]) cyan ;;
  log ([9562%N] ++ rule ++ [9565%N]) cyan.

Definition runAllTests_with (body : M unit) (w : World) : M unit :=
  banner w ;;
  try_catch body
    (fun error =>
       log (nl ++ cross_mark ++ u " Fatal Error during validation:") red ;;
       log (tpl (message error)) red ;;
       process_exit 1).

Definition runAllTests (w : World) : M unit :=
  runAllTests_with (all_checks w) w.

(** The module body: [runAllTests().catch(console.error)], started with the
    counters at zero, and the same with the [try] body left open.
    [console.error] writes to the error stream, which [State] does not
    record.  [dotenv.config()], called before, fills [process.env], which
    is [process_env] here; [console] holds the lines the script itself
    writes through [log], not a line the dotenv library may print of its
    own before them. *)
Definition script_with (body : M unit) (w : World) : completion unit :=
  try_catch (runAllTests_with body w) (fun _ => ret tt) initial.

Definition script (w : World) : completion unit :=
  try_catch (runAllTests w) (fun _ => ret tt) initial.

(** The exit status of the process: the argument of [process.exit] if it
    was called, 0 when the script runs to its end, 1 for an exception that
    nothing catches. *)
Definition exit_status (c : completion unit) : option Z :=
  match c with
  | Normal _ _ => Some 0
  | Exit code _ => Some code
  | Abrupt _ _ => Some 1
  | Unmodelled => None
  end.

(** The seven checks that come before the report. *)
Definition checks (w : World) : M unit :=
  testEnvironmentVariables w ;;
  testMongoDBConnection w ;;
  testCloudinaryAPI w ;;
  testResendAPI w ;;
  testJWTSecrets w ;;
  testCORSConfiguration w ;;
  testAPIEndpoints w.

(** ** The report, in the words of the specification

    The success rate is [passed / (passed + failed) * 100] rounded to two
    decimals, here as an exact count of hundredths (a tie rounds up), and
    the verdict is chosen from [failed] and from whether the rate is at
    least 80. *)
Definition rate_hundredths (passed failed : Z) : Z :=
  (2 * (10000 * passed) + (passed + failed)) / (2 * (passed + failed)).

Definition rate_text (passed failed : Z) : jsstring :=
  fixed_point 2 (rate_hundredths passed failed).

Inductive verdict := AllPassed | SomeFailed | CriticalFailures.

(** Whether the rate [passed / (passed + failed) * 100] is at least 80. *)
Definition rate_at_least_80 (passed failed : Z) : bool :=
  80 * (passed + failed) <=? 100 * passed.

Definition spec_verdict (passed failed : Z) : verdict :=
  if failed =? 0 then AllPassed
  else if rate_at_least_80 passed failed then SomeFailed
  else CriticalFailures.

Definition verdict_line (v : verdict) : jsstring :=
  match v with
  | AllPassed => colors green ++ all_passed_message ++ colors reset
  | SomeFailed => colors yellow ++ some_failed_message ++ colors reset
  | CriticalFailures => colors red ++ critical_message ++ colors reset
  end.

(** The lines of a report whose rate is printed as [shown], in the colour
    [c], and whose verdict is [v]. *)
Definition report_lines (passed failed : Z) (shown : jsstring) (c : color) (v : verdict)
  : list jsstring :=
  [ colors cyan ++ (nl ++ rule) ++ colors reset;
    colors blue ++ ([55357%N; 56522%N] ++ u " VALIDATION REPORT") ++ colors reset;
    colors cyan ++ (rule ++ nl) ++ colors reset;
    colors cyan ++ (u "Total Tests: " ++ digits (passed + failed)) ++ colors reset;
    colors green ++ (check_mark ++ u " Passed: " ++ digits passed) ++ colors reset;
    colors red ++ (cross_mark ++ u " Failed: " ++ digits failed) ++ colors reset;
    colors c ++ (u "Success Rate: " ++ shown ++ u "%" ++ nl) ++ colors reset;
    verdict_line v;
    colors cyan ++ (nl ++ rule ++ nl) ++ colors reset ].

(** ** The order routes

    The second file registers two routes on an express router.  A router is
    the list of its bindings in registration order; [post] and [get] add
    one binding whose handlers are kept in the order of the call. *)
Module OrderRoute.

Inductive Method := GET | POST.

Inductive Handler :=
| auth
| CashOnDeliveryOrderController
| getOrderDetailsController.

Record Binding := mkBinding {
  binding_method : Method;
  binding_path : string;
  stack : list Handler
}.

Definition Router : list Binding := [].

Definition post (path : string) (handlers : list Handler) (router : list Binding)
  : list Binding :=
  router ++ [mkBinding POST path handlers].

Definition get (path : string) (handlers : list Handler) (router : list Binding)
  : list Binding :=
  router ++ [mkBinding GET path handlers].

Definition orderRouter : list Binding :=
  get "/order-list" [auth; getOrderDetailsController]
    (post "/cash-on-delivery" [auth; CashOnDeliveryOrderController] Router).

(** How express serves a request: the bindings that match it are tried in
    order, each running its handlers one after the other for as long as
    they call [next()].  Which binding matches a request and which handler
    calls [next()] belong to express, the middleware and the controllers;
    they are left open.  The result is the list of the handlers that ran. *)
Section Dispatch.

Context {Request : Type}.
Variable matches : Binding -> Request -> bool.
Variable calls_next : Handler -> Request -> bool.

Fixpoint run_stack (handlers : list Handler) (req : Request) : list Handler * bool :=
  match handlers with
  | [] => ([], true)
  | h :: rest =>
      if calls_next h req
      then let (ran, through) := run_stack rest req in (h :: ran, through)
      else ([h], false)
  end.

Fixpoint handle (router : list Binding) (req : Request) : list Handler :=
  match router with
  | [] => []
  | b :: rest =>
      if matches b req
      then let (ran, through) := run_stack (stack b) req in
           if through then ran ++ handle rest req else ran
      else handle rest req
  end.

End Dispatch.

End OrderRoute.

(** ** The four cases of the CORS check, and redaction

    [cors_class_of] names the branch [testCORSConfiguration] takes for a
    value of [FRONTEND_URL], with the conditions of the source in their
    order. *)
Inductive cors_class := CorsUnset | CorsDevelopment | CorsProduction | CorsUnusual.

Definition cors_class_of (frontendUrl : option jsstring) : cors_class :=
  if negb (truthy frontendUrl) then CorsUnset
  else if jsstring_eqb (str frontendUrl) (u "http://localhost:5173") then CorsDevelopment
  else if includes (u "vercel.app") (str frontendUrl)
          || includes (u "campusbites") (str frontendUrl) then CorsProduction
  else CorsUnusual.


(** The lines of the banner, and the line every [catch] block of a check
    prints for the error it caught. *)
Definition banner_lines (w : World) : list jsstring :=
  [ colors reset ++ (nl ++ nl) ++ colors reset;
    colors cyan ++ ([9556%N] ++ rule ++ [9559%N]) ++ colors reset;
    colors cyan
      ++ ([9553%N] ++ u "   CampusBites API & ENV Validation       " ++ [9553%N])
      ++ colors reset;
    colors cyan
      ++ ([9553%N] ++ u "   Started: " ++ Date_toLocaleString w ++ u "       " ++ [9553%N])
      ++ colors reset;
    colors cyan ++ ([9562%N] ++ rule ++ [9565%N]) ++ colors reset ].


Definition error_line (error : JsError) : jsstring :=
  colors red ++ (u "   Error: " ++ tpl (message error)) ++ colors reset.

(** ** Sample worlds

    [calm env] is a world in which every collaborator answers well; the
    others differ from it in one answer. *)
Definition calm (env : gmap string (list N)) : World :=
  mkWorld env
    (fun _ => Fulfilled tt)
    (Fulfilled tt)
    (fun _ _ _ => Fulfilled tt)
    (fun _ _ => Fulfilled (mkResponse 200))
    (u "1/1/2026, 10:00:00 AM").

Definition answering (code : Z) (env : gmap string (list N)) : World :=
  mkWorld env
    (fun _ => Fulfilled tt)
    (Fulfilled tt)
    (fun _ _ _ => Fulfilled tt)
    (fun _ _ => Fulfilled (mkResponse code))
    (u "1/1/2026, 10:00:00 AM").

Definition unreachable (env : gmap string (list N)) : World :=
  mkWorld env
    (fun _ => Rejected (mkError (Some (u "connect ECONNREFUSED"))))
    (Fulfilled tt)
    (fun _ _ _ => Rejected (mkError None))
    (fun _ _ => Rejected (mkError (Some (u "connect ECONNREFUSED"))))
    (u "1/1/2026, 10:00:00 AM").

Definition failing_disconnect (env : gmap string (list N)) : World :=
  mkWorld env
    (fun _ => Fulfilled tt)
    (Rejected (mkError (Some (u "connection closed"))))
    (fun _ _ _ => Fulfilled tt)
    (fun _ _ => Fulfilled (mkResponse 200))
    (u "1/1/2026, 10:00:00 AM").

(** A way of matching requests, given by method and path, for examples. *)
Definition sample_matches (b : OrderRoute.Binding) (req : OrderRoute.Method * string) : bool :=
  match OrderRoute.binding_method b, fst req with
  | OrderRoute.GET, OrderRoute.GET | OrderRoute.POST, OrderRoute.POST =>
      String.eqb (OrderRoute.binding_path b) (snd req)
  | _, _ => false
  end.

Definition sample_env : gmap string (list N) :=
  {[ "MONGODB_URI" := u "mongodb+srv://app:pw@cluster0.example.net/campus";
     "FRONTEND_URL" := u "http://localhost:5173";
     "CLODINARY_CLOUD_NAME" := u "campus";
     "CLODINARY_API_KEY" := u "123456789012345";
     "CLODINARY_API_SECRET_KEY" := u "cloud-secret-wxyz";
     "RESEND_API" := u "re_live_0123456789";
     "SECRET_KEY_ACCESS_TOKEN" := u "0123456789abcdefghi";
     "SECRET_KEY_REFRESH_TOKEN" := u "0123456789abcdefghij" ]}.

(** ** Support for the proofs about the report

    [report_agrees passed failed] computes whether, for these counters, the
    binary64 computation of [generateReport] prints the rate that the exact
    arithmetic of [rate_hundredths] gives and compares it with 80 as
    [rate_at_least_80] does, the rounded rate and the exact one falling on
    the same side of 80;
    [counter_pairs n] lists the counter values whose sum is between 1 and
    [n]. *)
Definition report_agrees (passed failed : Z) : bool :=
  match passPercentage passed (passed + failed) with
  | Some percentage =>
      match ToString percentage, at_least_80 percentage with
      | Some shown, Some high =>
          jsstring_eqb shown (rate_text passed failed)
          && Bool.eqb high (rate_at_least_80 passed failed)
          && Bool.eqb high (8000 <=? rate_hundredths passed failed)
      | _, _ => false
      end
  | None => false
  end.

Definition counter_pairs (n : nat) : list (Z * Z) :=
  flat_map
    (fun total => map (fun p => (Z.of_nat p, Z.of_nat total - Z.of_nat p)) (seq 0 (S total)))
    (seq 1 n).

(** What a check may do to the counters: neither decreases, and together
    they grow by an amount between [lo] and [hi]. *)
Definition grows (lo hi : Z) (s s' : State) : Prop :=
  testsPassed s <= testsPassed s'
  /\ testsFailed s <= testsFailed s'
  /\ lo <= (testsPassed s' + testsFailed s') - (testsPassed s + testsFailed s) <= hi.

(** ** What each check adds to the counters

    For a world, the pair (passes, failures) that each check adds, by the
    conditions of its source; [run_counts] is their sum over the seven
    checks in the order of [runAllTests]. *)
Definition plus2 (a b : Z * Z) : Z * Z := (fst a + fst b, snd a + snd b).

Definition listing_counts (w : World) : Z * Z :=
  ( Z.of_nat (length (List.filter (fun e => truthy (process_env w !! name e)) envVars)),
    Z.of_nat (length (List.filter (fun e => negb (truthy (process_env w !! name e))
                                            && required e) envVars)) ).

Definition database_counts (w : World) : Z * Z :=
  let mongoUri := process_env w !! "MONGODB_URI" in
  if truthy mongoUri then
    match mongoose_connect w (str mongoUri), mongoose_disconnect w with
    | Fulfilled _, Fulfilled _ => (1, 0)
    | Fulfilled _, Rejected _ => (1, 1)
    | Rejected _, _ => (0, 1)
    end
  else (0, 1).

Definition storage_counts (w : World) : Z * Z :=
  let cloudName := process_env w !! "CLODINARY_CLOUD_NAME" in
  let apiKey := process_env w !! "CLODINARY_API_KEY" in
  let apiSecret := process_env w !! "CLODINARY_API_SECRET_KEY" in
  if truthy cloudName && truthy apiKey && truthy apiSecret then
    match cloudinary_usage w (str cloudName) (str apiKey) (str apiSecret) with
    | Fulfilled _ => (1, 0)
    | Rejected _ => (0, 1)
    end
  else (0, 1).

Definition email_counts (w : World) : Z * Z :=
  let resendApi := process_env w !! "RESEND_API" in
  if truthy resendApi then
    match fetch w (u "https://api.resend.com/emails") (resend_options (str resendApi)) with
    | Fulfilled response =>
        if ok response || (status response =? 401) then (1, 0) else (0, 1)
    | Rejected _ => (0, 1)
    end
  else (0, 1).

Definition secrets_counts (w : World) : Z * Z :=
  let accessToken := process_env w !! "SECRET_KEY_ACCESS_TOKEN" in
  let refreshToken := process_env w !! "SECRET_KEY_REFRESH_TOKEN" in
  if truthy accessToken && truthy refreshToken then
    plus2 (if 20 <=? js_length (str accessToken) then (1, 0) else (0, 1))
          (if 20 <=? js_length (str refreshToken) then (1, 0) else (0, 1))
  else (0, 1).

Definition cors_counts (w : World) : Z * Z :=
  match cors_class_of (process_env w !! "FRONTEND_URL") with
  | CorsUnset => (0, 1)
  | CorsDevelopment | CorsProduction => (1, 0)
  | CorsUnusual => (0, 0)
  end.

(** The request the loop of [testAPIEndpoints] makes for an endpoint. *)
Definition probe (w : World) (endpoint : Endpoint) : settled Response :=
  fetch w (BASE_URL ++ ep_path endpoint) (endpoint_options endpoint).

Definition probe_counts (w : World) (endpoint : Endpoint) : Z * Z :=
  match probe w endpoint with
  | Fulfilled response => if ok response then (1, 0) else (0, 0)
  | Rejected _ => (0, 1)
  end.

Definition probes_counts (w : World) : Z * Z :=
  fold_right (fun endpoint acc => plus2 (probe_counts w endpoint) acc) (0, 0) endpoints.

Definition run_counts (w : World) : Z * Z :=
  plus2 (listing_counts w)
    (plus2 (database_counts w)
       (plus2 (storage_counts w)
          (plus2 (email_counts w)
             (plus2 (secrets_counts w)
                (plus2 (cors_counts w) (probes_counts w)))))).

(** [adds d s s']: from [s] to [s'] the counters grew by the pair [d]. *)
Definition adds (d : Z * Z) (s s' : State) : Prop :=
  testsPassed s' = testsPassed s + fst d /\ testsFailed s' = testsFailed s + snd d.

(** More sample worlds: one where nothing is configured and nothing
    answers, and one where every check passes except that the origin is
    none of the expected ones and the local server answers 500. *)
Definition bare_world : World := unreachable ∅.

Definition complete_env : gmap string (list N) :=
  {[ "MONGODB_URI" := u "mongodb+srv://app:pw@cluster0.example.net/campus";
     "FRONTEND_URL" := u "https://example.org";
     "CLODINARY_CLOUD_NAME" := u "campus";
     "CLODINARY_API_KEY" := u "123456789012345";
     "CLODINARY_API_SECRET_KEY" := u "cloud-secret-wxyz";
     "RESEND_API" := u "re_live_0123456789";
     "SECRET_KEY_ACCESS_TOKEN" := u "0123456789abcdefghij";
     "SECRET_KEY_REFRESH_TOKEN" := u "0123456789abcdefghij" ]}.

Definition server_down_world : World :=
  mkWorld complete_env
    (fun _ => Fulfilled tt)
    (Fulfilled tt)
    (fun _ _ _ => Fulfilled tt)
    (fun url _ =>
       if jsstring_eqb url (u "https://api.resend.com/emails")
       then Fulfilled (mkResponse 200)
       else Fulfilled (mkResponse 500))
    (u "1/1/2026, 10:00:00 AM").

(** The line each check prints when what it needs is not configured. *)
Definition not_configured_line (what : string) : jsstring :=
  colors red ++ (cross_mark ++ u what) ++ colors reset.

Definition only_refresh_env : gmap string (list N) :=
  {[ "SECRET_KEY_REFRESH_TOKEN" := u "0123456789abcdefghij" ]}.

Definition at_sign_env : gmap string (list N) :=
  {[ "MONGODB_URI" := u "mongodb://app:p@ss@db.example.net/campus" ]}.

Definition lookalike_env : gmap string (list N) :=
  {[ "FRONTEND_URL" := u "http://evil.example/?campusbites" ]}.

(** A [try] body that throws at once, for examples. *)
Definition throwing_body (error : JsError) : M unit := fun s => Abrupt error s.

(** The two lines the [catch] block of [runAllTests] prints. *)
Definition fatal_lines (error : JsError) : list jsstring :=
  [ colors red ++ (nl ++ cross_mark ++ u " Fatal Error during validation:") ++ colors reset;
    colors red ++ tpl (message error) ++ colors reset ].

(** ** The shape of the output

    A line is [wrapped] when it is a message between a colour sequence and
    the reset sequence, as [log] writes it; [extends s s'] says that [s']
    has the console of [s] followed by wrapped lines only; a piece of code
    is [orderly] when, however it completes, it extends the state it
    started from. *)
Definition wrapped (line : jsstring) : Prop :=
  exists c msg, line = colors c ++ msg ++ colors reset.

Definition extends (s s' : State) : Prop :=
  exists added, console s' = console s ++ added /\ Forall wrapped added.

Definition orderly {A} (m : M A) : Prop :=
  forall s,
    match m s with
    | Normal _ s' | Abrupt _ s' | Exit _ s' => extends s s'
    | Unmodelled => True
    end.

(** An environment with all ten variables set, for the best run. *)
Definition full_env : gmap string (list N) :=
  {[ "MONGODB_URI" := u "mongodb+srv://app:pw@cluster0.example.net/campus";
     "FRONTEND_URL" := u "http://localhost:5173";
     "CLODINARY_CLOUD_NAME" := u "campus";
     "CLODINARY_API_KEY" := u "123456789012345";
     "CLODINARY_API_SECRET_KEY" := u "cloud-secret-wxyz";
     "RESEND_API" := u "re_live_0123456789";
     "SECRET_KEY_ACCESS_TOKEN" := u "0123456789abcdefghij";
     "SECRET_KEY_REFRESH_TOKEN" := u "0123456789abcdefghij";
     "PORT" := u "8080";
     "STRIPE_SECRET_KEY" := u "sk_test_0123456789" ]}.

(** * Properties *)

(** ** Sanity checks of the string and number operations *)

Example toFixed_80 : toFixed 2 (js_mul (js_div (num 8) (num 10)) (num 100)) = Some (u "80.00").
Proof. vm_compute. reflexivity. Qed.

Example toFixed_tie_up : toFixed 2 (js_mul (js_div (num 1) (num 32)) (num 100)) = Some (u "3.13").
Proof. vm_compute. reflexivity. Qed.

Example toFixed_1005 : toFixed 2 (js_div (num 1005) (num 1000)) = Some (u "1.00").
Proof. vm_compute. reflexivity. Qed.

Example toFixed_10235 : toFixed 2 (js_div (num 10235) (num 1000)) = Some (u "10.23").
Proof. vm_compute. reflexivity. Qed.

Example toFixed_8345 : toFixed 2 (js_div (num 8345) (num 1000)) = Some (u "8.35").
Proof. vm_compute. reflexivity. Qed.

Example toFixed_small : toFixed 2 (js_div (num 1) (num 1000)) = Some (u "0.00").
Proof. vm_compute. reflexivity. Qed.

Example toNumber_80 : String_toNumber (u "80.00") = Some (num 80).
Proof. vm_compute. reflexivity. Qed.

Example slice_last4 : slice (-4) (u "secretabcd") = u "abcd".
Proof. reflexivity. Qed.

Example slice_short : slice (-4) (u "abc") = u "abc".
Proof. reflexivity. Qed.

Example split_at : nth_error (split_on 64 (u "mongodb://user:pw@host/db")) 1 = Some (u "host/db").
Proof. reflexivity. Qed.

Example includes_vercel : includes (u "vercel.app") (u "https://campusbites.vercel.app") = true.
Proof. reflexivity. Qed.


(** ** The monad *)

Lemma bind_normal {A B} (m : M A) (k : A -> M B) (s s' : State) (a : A) :
  m s = Normal a s' -> bind m k s = k a s'.
Proof. intros H. unfold bind. rewrite H. reflexivity. Qed.

Lemma header_normal (icon : jsstring) (title : string) (s : State) :
  header icon title s =
  Normal tt (mkState (testsPassed s) (testsFailed s)
               (console s ++ [colors cyan ++ (nl ++ rule) ++ colors reset;
                              colors blue ++ (icon ++ u title) ++ colors reset;
                              colors cyan ++ (rule ++ nl) ++ colors reset])).
Proof.
  unfold header, bind, log. simpl. rewrite <- !app_assoc. reflexivity.
Qed.

Lemma grows_refl (s : State) : grows 0 0 s s.
Proof. unfold grows. lia. Qed.

Lemma grows_trans (a b c d : Z) (s1 s2 s3 : State) :
  grows a b s1 s2 -> grows c d s2 s3 -> grows (a + c) (b + d) s1 s3.
Proof. unfold grows. lia. Qed.

Lemma grows_weaken (a b c d : Z) (s s' : State) :
  grows a b s s' -> c <= a -> b <= d -> grows c d s s'.
Proof. unfold grows. lia. Qed.

(** ** The checks, one by one *)

Ltac run :=
  cbv beta iota delta
    [bind try_catch log await passed_incr failed_incr ret defined process_exit
     get_testsPassed get_testsFailed negb orb andb];
  cbn [testsPassed testsFailed console].

Lemma envVar_callback_normal (w : World) (envVar : EnvVar) (s : State) :
  let value := process_env w !! name envVar in
  envVar_callback w envVar s =
  Normal tt
    (mkState
       (testsPassed s + (if truthy value then 1 else 0))
       (testsFailed s + (if truthy value then 0 else if required envVar then 1 else 0))
       (console s ++
        [ colors (if truthy value then green else red)
            ++ ((if truthy value then check_mark else cross_mark) ++ u " "
                ++ u (name envVar) ++ u " "
                ++ (if required envVar then u "[REQUIRED]" else u "[OPTIONAL]"))
            ++ colors reset;
          colors (if truthy value then green else red)
            ++ (u "   Value: " ++ displayValue envVar value ++ nl)
            ++ colors reset ])).
Proof.
  intros value. unfold envVar_callback. fold value.
  destruct (truthy value), (required envVar); run;
    rewrite <- ?app_assoc, ?Z.add_0_r; reflexivity.
Qed.

Lemma for_each_grows {A} (f : A -> M unit) (hi : Z) :
  0 <= hi ->
  (forall x s, exists s', f x s = Normal tt s' /\ grows 0 hi s s') ->
  forall xs s, exists s',
    for_each xs f s = Normal tt s' /\ grows 0 (hi * Z.of_nat (length xs)) s s'.
Proof.
  intros Hhi Hf xs. induction xs as [|x xs IH]; intros s.
  - exists s. split; [reflexivity|]. simpl. rewrite Z.mul_0_r. apply grows_refl.
  - destruct (Hf x s) as [s1 [E1 G1]]. destruct (IH s1) as [s2 [E2 G2]].
    exists s2. split.
    + simpl. rewrite (bind_normal _ _ _ _ _ E1). exact E2.
    + eapply grows_weaken; [exact (grows_trans _ _ _ _ _ _ _ G1 G2) | lia |].
      simpl length. lia.
Qed.

Lemma testEnvironmentVariables_grows (w : World) (s : State) :
  exists s', testEnvironmentVariables w s = Normal tt s' /\ grows 0 10 s s'.
Proof.
  unfold testEnvironmentVariables.
  rewrite (bind_normal _ _ _ _ _ (header_normal _ _ s)).
  destruct (for_each_grows (envVar_callback w) 1 ltac:(lia)) with (xs := envVars)
    (s := mkState (testsPassed s) (testsFailed s)
            (console s ++ [colors cyan ++ (nl ++ rule) ++ colors reset;
                           colors blue ++ ([55357%N; 56589%N] ++ u " TESTING ENVIRONMENT VARIABLES") ++ colors reset;
                           colors cyan ++ (rule ++ nl) ++ colors reset]))
    as [s' [E G]].
  - intros x s0. eexists. split; [apply envVar_callback_normal|].
    unfold grows; run.
    destruct (truthy _), (required x); lia.
  - exists s'. split; [exact E|]. revert G.
    change (Z.of_nat (length envVars)) with 10. unfold grows. run. lia.
Qed.

Lemma testMongoDBConnection_grows (w : World) (s : State) :
  exists s', testMongoDBConnection w s = Normal tt s' /\ grows 1 2 s s'.
Proof.
  unfold testMongoDBConnection.
  rewrite (bind_normal _ _ _ _ _ (header_normal _ _ s)).
  destruct (truthy (process_env w !! "MONGODB_URI")); run.
  - destruct (mongoose_connect w _) as [[]|e]; run.
    + destruct (mongoose_disconnect w) as [[]|e]; run; eexists; (split; [reflexivity|]);
        unfold grows; run; lia.
    + eexists; (split; [reflexivity|]); unfold grows; run; lia.
  - eexists; (split; [reflexivity|]); unfold grows; run; lia.
Qed.

Ltac finish_grows :=
  eexists; (split; [reflexivity|]); unfold grows; run; lia.

Lemma testCloudinaryAPI_grows (w : World) (s : State) :
  exists s', testCloudinaryAPI w s = Normal tt s' /\ grows 1 1 s s'.
Proof.
  unfold testCloudinaryAPI.
  rewrite (bind_normal _ _ _ _ _ (header_normal _ _ s)).
  destruct (truthy (process_env w !! "CLODINARY_CLOUD_NAME")),
           (truthy (process_env w !! "CLODINARY_API_KEY")),
           (truthy (process_env w !! "CLODINARY_API_SECRET_KEY")); run;
    try finish_grows.
  destruct (cloudinary_usage w _ _ _) as [[]|e]; run; finish_grows.
Qed.

Lemma testResendAPI_grows (w : World) (s : State) :
  exists s', testResendAPI w s = Normal tt s' /\ grows 1 1 s s'.
Proof.
  unfold testResendAPI.
  rewrite (bind_normal _ _ _ _ _ (header_normal _ _ s)).
  destruct (truthy (process_env w !! "RESEND_API")); run; [|finish_grows].
  destruct (fetch w _ _) as [response|e]; run; [|finish_grows].
  destruct (ok response), (status response =? 200), (status response =? 401); run;
    finish_grows.
Qed.

Lemma testJWTSecrets_grows (w : World) (s : State) :
  exists s', testJWTSecrets w s = Normal tt s' /\ grows 1 2 s s'.
Proof.
  unfold testJWTSecrets.
  rewrite (bind_normal _ _ _ _ _ (header_normal _ _ s)).
  destruct (truthy (process_env w !! "SECRET_KEY_ACCESS_TOKEN")),
           (truthy (process_env w !! "SECRET_KEY_REFRESH_TOKEN")); run;
    try finish_grows.
  destruct (20 <=? js_length (str (process_env w !! "SECRET_KEY_ACCESS_TOKEN"))),
           (20 <=? js_length (str (process_env w !! "SECRET_KEY_REFRESH_TOKEN"))); run;
    finish_grows.
Qed.

Lemma testCORSConfiguration_grows (w : World) (s : State) :
  exists s', testCORSConfiguration w s = Normal tt s' /\ grows 0 1 s s'.
Proof.
  unfold testCORSConfiguration.
  rewrite (bind_normal _ _ _ _ _ (header_normal _ _ s)).
  destruct (truthy (process_env w !! "FRONTEND_URL")); run; [|finish_grows].
  destruct (jsstring_eqb _ _); run; [finish_grows|].
  destruct (includes (u "vercel.app") (str (process_env w !! "FRONTEND_URL")));
    run; [finish_grows|].
  destruct (includes (u "campusbites") (str (process_env w !! "FRONTEND_URL")));
    run; finish_grows.
Qed.

Lemma endpoint_body_grows (w : World) (endpoint : Endpoint) (s : State) :
  exists s', endpoint_body w endpoint s = Normal tt s' /\ grows 0 1 s s'.
Proof.
  unfold endpoint_body. run.
  destruct (fetch w _ _) as [response|e]; run; [|finish_grows].
  destruct (ok response); run; finish_grows.
Qed.

Lemma testAPIEndpoints_grows (w : World) (s : State) :
  exists s', testAPIEndpoints w s = Normal tt s' /\ grows 0 3 s s'.
Proof.
  unfold testAPIEndpoints.
  rewrite (bind_normal _ _ _ _ _ (header_normal _ _ s)).
  destruct (for_each_grows (endpoint_body w) 1 ltac:(lia) (endpoint_body_grows w)
              endpoints
              (mkState (testsPassed s) (testsFailed s)
                 (console s ++ [colors cyan ++ (nl ++ rule) ++ colors reset;
                                colors blue ++ ([55357%N; 56960%N] ++ u " TESTING API ENDPOINTS") ++ colors reset;
                                colors cyan ++ (rule ++ nl) ++ colors reset])))
    as [s' [E G]].
  exists s'. split; [exact E|]. revert G.
  change (Z.of_nat (length endpoints)) with 3. unfold grows. run. lia.
Qed.

(** Every run counts between 4 and 20 results before the report. *)
Lemma checks_grows (w : World) (s : State) :
  exists s', checks w s = Normal tt s' /\ grows 4 20 s s'.
Proof.
  unfold checks.
  destruct (testEnvironmentVariables_grows w s) as [s1 [E1 G1]].
  destruct (testMongoDBConnection_grows w s1) as [s2 [E2 G2]].
  destruct (testCloudinaryAPI_grows w s2) as [s3 [E3 G3]].
  destruct (testResendAPI_grows w s3) as [s4 [E4 G4]].
  destruct (testJWTSecrets_grows w s4) as [s5 [E5 G5]].
  destruct (testCORSConfiguration_grows w s5) as [s6 [E6 G6]].
  destruct (testAPIEndpoints_grows w s6) as [s7 [E7 G7]].
  exists s7. split.
  - rewrite (bind_normal _ _ _ _ _ E1), (bind_normal _ _ _ _ _ E2),
      (bind_normal _ _ _ _ _ E3), (bind_normal _ _ _ _ _ E4),
      (bind_normal _ _ _ _ _ E5), (bind_normal _ _ _ _ _ E6).
    exact E7.
  - revert G1 G2 G3 G4 G5 G6 G7. unfold grows. lia.
Qed.

Lemma all_checks_eq (w : World) (s : State) :
  all_checks w s = bind (checks w) (fun _ => generateReport) s.
Proof.
  unfold all_checks, checks, bind.
  destruct (testEnvironmentVariables w s) as [[] s1| | |]; [|reflexivity..].
  destruct (testMongoDBConnection w s1) as [[] s2| | |]; [|reflexivity..].
  destruct (testCloudinaryAPI w s2) as [[] s3| | |]; [|reflexivity..].
  destruct (testResendAPI w s3) as [[] s4| | |]; [|reflexivity..].
  destruct (testJWTSecrets w s4) as [[] s5| | |]; [|reflexivity..].
  destruct (testCORSConfiguration w s5) as [[] s6| | |]; reflexivity.
Qed.

(** ** The report *)

Lemma counter_pairs_complete (n : nat) (p f : Z) :
  0 <= p -> 0 <= f -> 0 < p + f <= Z.of_nat n -> In (p, f) (counter_pairs n).
Proof.
  intros Hp Hf Hn. unfold counter_pairs. apply in_flat_map.
  exists (Z.to_nat (p + f)). split.
  - apply in_seq. lia.
  - apply in_map_iff. exists (Z.to_nat p). split.
    + f_equal; lia.
    + apply in_seq. lia.
Qed.

Lemma report_agrees_100 :
  forallb (fun pf => report_agrees (fst pf) (snd pf)) (counter_pairs 100) = true.
Proof. vm_compute. reflexivity. Qed.

Lemma report_agrees_small (p f : Z) :
  0 <= p -> 0 <= f -> 0 < p + f <= 100 -> report_agrees p f = true.
Proof.
  intros Hp Hf Hn.
  pose proof report_agrees_100 as H. rewrite forallb_forall in H.
  apply (H (p, f)). apply counter_pairs_complete; simpl; lia.
Qed.

Lemma rounded_rate_side (p f : Z) :
  report_agrees p f = true ->
  rate_at_least_80 p f = (8000 <=? rate_hundredths p f).
Proof.
  unfold report_agrees. intros H.
  destruct (passPercentage p (p + f)) as [v|]; [|discriminate].
  destruct (ToString v) as [shown|]; [|discriminate].
  destruct (at_least_80 v) as [high|]; [|discriminate].
  apply andb_true_iff in H. destruct H as [H Hr].
  apply andb_true_iff in H. destruct H as [_ He].
  apply eqb_prop in He. apply eqb_prop in Hr. congruence.
Qed.

Lemma generateReport_agrees (p f : Z) (c : list jsstring) :
  report_agrees p f = true ->
  generateReport (mkState p f c) =
  Normal tt
    (mkState p f
       (c ++ report_lines p f (rate_text p f)
               (if rate_at_least_80 p f then green else red)
               (spec_verdict p f))).
Proof.
  intros H. unfold report_agrees in H.
  unfold generateReport.
  rewrite (bind_normal _ _ _ _ _ (header_normal _ _ _)). run.
  destruct (passPercentage p (p + f)) as [v|]; [|discriminate].
  destruct (ToString v) as [shown|]; [|discriminate].
  destruct (at_least_80 v) as [high|]; [|discriminate].
  apply andb_true_iff in H. destruct H as [H _].
  apply andb_true_iff in H. destruct H as [Hs Hh].
  apply bool_decide_eq_true in Hs. apply eqb_prop in Hh. subst shown high.
  unfold spec_verdict, report_lines, verdict_line.
  destruct (f =? 0); run.
  - rewrite <- !app_assoc. reflexivity.
  - destruct (rate_at_least_80 p f); run; rewrite <- !app_assoc; reflexivity.
Qed.

(** ** The whole run *)

Lemma banner_normal (w : World) (s : State) :
  banner w s =
  Normal tt (mkState (testsPassed s) (testsFailed s) (console s ++ banner_lines w)).
Proof.
  unfold banner, banner_lines. run. rewrite <- !app_assoc. reflexivity.
Qed.

(** What [script_with] does with a body: the status is 1 exactly when the
    body throws, and the body's own otherwise. *)
Lemma script_with_status (body : M unit) (w : World) :
  exit_status (script_with body w) =
  match body (mkState 0 0 (banner_lines w)) with
  | Normal _ _ => Some 0
  | Abrupt _ _ => Some 1
  | Exit code _ => Some code
  | Unmodelled => None
  end.
Proof.
  unfold script_with, runAllTests_with, try_catch at 1.
  rewrite (bind_normal _ _ _ _ _ (banner_normal w initial)).
  change (console initial ++ banner_lines w) with (banner_lines w).
  change (testsPassed initial) with 0. change (testsFailed initial) with 0.
  unfold try_catch.
  destruct (body (mkState 0 0 (banner_lines w))); run; reflexivity.
Qed.

Lemma script_runs (w : World) :
  exists s,
    bind (banner w) (fun _ => checks w) initial = Normal tt s
    /\ 0 <= testsPassed s /\ 0 <= testsFailed s
    /\ 4 <= testsPassed s + testsFailed s <= 20
    /\ report_agrees (testsPassed s) (testsFailed s) = true
    /\ script w =
       Normal tt
         (mkState (testsPassed s) (testsFailed s)
            (console s
             ++ report_lines (testsPassed s) (testsFailed s)
                  (rate_text (testsPassed s) (testsFailed s))
                  (if rate_at_least_80 (testsPassed s) (testsFailed s)
                   then green else red)
                  (spec_verdict (testsPassed s) (testsFailed s)))).
Proof.
  destruct (checks_grows w (mkState 0 0 (banner_lines w))) as [[p f c] [E G]].
  unfold grows in G. cbn [testsPassed testsFailed] in G.
  exists (mkState p f c). cbn [testsPassed testsFailed console].
  split; [|split; [lia|split; [lia|split; [lia|split]]]].
  - rewrite (bind_normal _ _ _ _ _ (banner_normal w initial)). exact E.
  - apply report_agrees_small; lia.
  - unfold script, runAllTests, runAllTests_with, try_catch.
    rewrite (bind_normal _ _ _ _ _ (banner_normal w initial)).
    change (mkState (testsPassed initial) (testsFailed initial)
              (console initial ++ banner_lines w))
      with (mkState 0 0 (banner_lines w)).
    rewrite all_checks_eq, (bind_normal _ _ _ _ _ E).
    rewrite generateReport_agrees; [reflexivity|].
    apply report_agrees_small; lia.
Qed.

(** C2: for the counters any run ends with, [generateReport] prints the
    rate [passed / (passed + failed) * 100] rounded to two decimals and
    takes the verdict of the specification: all passed when [failed] is 0,
    otherwise the warning when the rate is at least 80, otherwise the
    critical failure; the rounded rate that the code compares with 80 is on
    the same side of 80 as the exact one.  The same holds of every pair of
    counters whose sum is between 1 and 100.  With 8 passed and 2 failed it
    prints 80.00% and the warning. *)
Theorem generateReport_rate_and_verdict :
  (forall w : World, exists s,
     bind (banner w) (fun _ => checks w) initial = Normal tt s
     /\ script w =
        Normal tt
          (mkState (testsPassed s) (testsFailed s)
             (console s
              ++ report_lines (testsPassed s) (testsFailed s)
                   (rate_text (testsPassed s) (testsFailed s))
                   (if rate_at_least_80 (testsPassed s) (testsFailed s)
                    then green else red)
                   (spec_verdict (testsPassed s) (testsFailed s))))
     /\ rate_at_least_80 (testsPassed s) (testsFailed s)
        = (8000 <=? rate_hundredths (testsPassed s) (testsFailed s)))
  /\ Forall
       (fun pf : Z * Z =>
          forall c : list jsstring,
            generateReport (mkState (fst pf) (snd pf) c) =
            Normal tt
              (mkState (fst pf) (snd pf)
                 (c ++ report_lines (fst pf) (snd pf)
                         (rate_text (fst pf) (snd pf))
                         (if rate_at_least_80 (fst pf) (snd pf) then green else red)
                         (spec_verdict (fst pf) (snd pf)))))
       (counter_pairs 100)
  /\ (forall c : list jsstring,
        generateReport (mkState 8 2 c) =
        Normal tt (mkState 8 2 (c ++ report_lines 8 2 (u "80.00") green SomeFailed))).
Proof.
  split; [|split].
  - intros w. destruct (script_runs w) as [s [E [_ [_ [_ [A R]]]]]].
    exists s. split; [exact E|]. split; [exact R|].
    apply rounded_rate_side. exact A.
  - apply Forall_forall. intros pf Hin c.
    apply generateReport_agrees.
    pose proof report_agrees_100 as H. rewrite forallb_forall in H.
    apply H. apply list_elem_of_In. exact Hin.
  - intros c. rewrite generateReport_agrees; [reflexivity|].
    apply report_agrees_small; lia.
Qed.

(** C10: with both counters at zero the rate is the number 0, not the
    quotient (which would be NaN); the report prints 0% and, [failed] being
    0, the all-passed verdict. *)
Theorem generateReport_without_tests (c : list jsstring) :
  passPercentage 0 (0 + 0) = Some (JNumber (num 0))
  /\ js_div (num 0) (num (0 + 0)) = S754_nan
  /\ generateReport (mkState 0 0 c) =
     Normal tt (mkState 0 0 (c ++ report_lines 0 0 (u "0") red AllPassed)).
Proof.
  split; [reflexivity|]. split; [reflexivity|].
  unfold generateReport.
  rewrite (bind_normal _ _ _ _ _ (header_normal _ _ _)). run.
  change (passPercentage 0 (0 + 0)) with (Some (JNumber (num 0))). run.
  change (ToString (JNumber (num 0))) with (Some (u "0")). run.
  change (at_least_80 (JNumber (num 0))) with (Some false). run.
  change (0 =? 0) with true. run.
  unfold report_lines, verdict_line. rewrite <- !app_assoc. reflexivity.
Qed.

(** ** The single checks *)

Ltac in_list := first [ left; reflexivity | right; in_list ].

Ltac in_console :=
  first [ apply in_or_app; right; cbn [In]; in_list
        | apply in_or_app; left; in_console ].

(** C1: with the API key set, the email-service check counts one pass when
    the response has status 401 or any status from 200 to 299, and one
    failure when the status is anything else or the request itself fails. *)
Theorem testResendAPI_outcomes (w : World) (s : State) (key : jsstring) :
  process_env w !! "RESEND_API" = Some key ->
  key <> [] ->
  exists s',
    testResendAPI w s = Normal tt s'
    /\ match fetch w (u "https://api.resend.com/emails") (resend_options key) with
       | Fulfilled response =>
           if (status response =? 401)
              || ((200 <=? status response) && (status response <? 300))
           then testsPassed s' = testsPassed s + 1 /\ testsFailed s' = testsFailed s
           else testsPassed s' = testsPassed s /\ testsFailed s' = testsFailed s + 1
       | Rejected _ =>
           testsPassed s' = testsPassed s /\ testsFailed s' = testsFailed s + 1
       end.
Proof.
  intros Hkey Hne. unfold testResendAPI.
  rewrite (bind_normal _ _ _ _ _ (header_normal _ _ s)), Hkey.
  destruct key as [|c k]; [contradiction|]. cbn [truthy str]. run.
  destruct (fetch w _ _) as [response|e]; run.
  - unfold ok.
    destruct (status response =? 401) eqn:E401;
      destruct (200 <=? status response) eqn:Elo;
      destruct (status response <? 300) eqn:Ehi;
      destruct (status response =? 200) eqn:E200;
      run; try (eexists; split; [reflexivity|]; cbn [testsPassed testsFailed]; split; reflexivity);
      lia.
  - eexists; split; [reflexivity|]. cbn [testsPassed testsFailed]. split; reflexivity.
Qed.

Lemma testResendAPI_outcomes_witness :
  exists s',
    testResendAPI (answering 401 sample_env) initial = Normal tt s'
    /\ testsPassed s' = 1 /\ testsFailed s' = 0.
Proof.
  destruct (testResendAPI_outcomes (answering 401 sample_env) initial
              (u "re_live_0123456789") eq_refl ltac:(discriminate))
    as [s' [E C]].
  exists s'. split; [exact E|]. exact C.
Defined.

(** C5: with both secrets set, each secret of at least 20 characters
    counts one pass and each shorter one counts one failure; 19 characters
    fail and 20 pass. *)
Theorem testJWTSecrets_boundary (w : World) (s : State) (access refresh : jsstring) :
  process_env w !! "SECRET_KEY_ACCESS_TOKEN" = Some access ->
  process_env w !! "SECRET_KEY_REFRESH_TOKEN" = Some refresh ->
  access <> [] ->
  refresh <> [] ->
  exists s',
    testJWTSecrets w s = Normal tt s'
    /\ testsPassed s' =
       testsPassed s + Z.b2z (20 <=? js_length access) + Z.b2z (20 <=? js_length refresh)
    /\ testsFailed s' =
       testsFailed s + Z.b2z (js_length access <? 20) + Z.b2z (js_length refresh <? 20).
Proof.
  intros Ha Hr Hane Hrne. unfold testJWTSecrets.
  rewrite (bind_normal _ _ _ _ _ (header_normal _ _ s)), Ha, Hr.
  destruct access as [|a access']; [contradiction|].
  destruct refresh as [|r refresh']; [contradiction|].
  cbn [truthy str]. run.
  rewrite !(Z.ltb_antisym 20).
  destruct (20 <=? js_length (a :: access')), (20 <=? js_length (r :: refresh'));
    run; eexists; (split; [reflexivity|]); cbn [testsPassed testsFailed negb Z.b2z];
    split; lia.
Qed.

Lemma testJWTSecrets_boundary_witness :
  js_length (u "0123456789abcdefghi") = 19
  /\ js_length (u "0123456789abcdefghij") = 20
  /\ exists s',
       testJWTSecrets (calm sample_env) initial = Normal tt s'
       /\ testsPassed s' = 1 /\ testsFailed s' = 1.
Proof.
  split; [reflexivity|]. split; [reflexivity|].
  destruct (testJWTSecrets_boundary (calm sample_env) initial
              (u "0123456789abcdefghi") (u "0123456789abcdefghij")
              eq_refl eq_refl ltac:(discriminate) ltac:(discriminate))
    as [s' [E C]].
  exists s'. split; [exact E|]. exact C.
Defined.

(** The counters after [xs.forEach] of the callback. *)
Lemma for_each_envVar_callback (w : World) (xs : list EnvVar) (s : State) :
  exists s',
    for_each xs (envVar_callback w) s = Normal tt s'
    /\ testsPassed s' =
       testsPassed s
       + Z.of_nat (length (List.filter (fun e => truthy (process_env w !! name e)) xs))
    /\ testsFailed s' =
       testsFailed s
       + Z.of_nat (length (List.filter (fun e => negb (truthy (process_env w !! name e))
                                            && required e) xs)).
Proof.
  revert s. induction xs as [|x xs IH]; intros s.
  - exists s. split; [reflexivity|]. simpl. lia.
  - cbn [for_each].
    rewrite (bind_normal _ _ _ _ _ (envVar_callback_normal w x s)).
    match goal with |- context [for_each xs _ ?s1] => destruct (IH s1) as [s' [E [P F]]] end.
    exists s'. split; [exact E|].
    rewrite P, F. cbn [testsPassed testsFailed List.filter].
    destruct (truthy (process_env w !! name x)), (required x);
      cbn [negb andb length]; lia.
Qed.

(** C6: for a spec of the list, the callback counts one pass when the
    variable is set (its value is a non-empty string), one failure when it
    is required and not set, and nothing when it is optional and not set;
    [testEnvironmentVariables] does this once for every spec of the list. *)
Theorem envVar_counting (w : World) (s : State) :
  Forall
    (fun envVar =>
       exists s',
         envVar_callback w envVar s = Normal tt s'
         /\ match truthy (process_env w !! name envVar), required envVar with
            | true, _ =>
                testsPassed s' = testsPassed s + 1 /\ testsFailed s' = testsFailed s
            | false, true =>
                testsPassed s' = testsPassed s /\ testsFailed s' = testsFailed s + 1
            | false, false =>
                testsPassed s' = testsPassed s /\ testsFailed s' = testsFailed s
            end)
    envVars
  /\ exists s',
       testEnvironmentVariables w s = Normal tt s'
       /\ testsPassed s' =
          testsPassed s
          + Z.of_nat (length (List.filter (fun e => truthy (process_env w !! name e)) envVars))
       /\ testsFailed s' =
          testsFailed s
          + Z.of_nat (length (List.filter (fun e => negb (truthy (process_env w !! name e))
                                               && required e) envVars)).
Proof.
  split.
  - apply Forall_forall. intros envVar _.
    eexists. split; [apply envVar_callback_normal|].
    cbn [testsPassed testsFailed].
    destruct (truthy (process_env w !! name envVar)), (required envVar); lia.
  - unfold testEnvironmentVariables.
    rewrite (bind_normal _ _ _ _ _ (header_normal _ _ s)).
    match goal with |- context [for_each envVars _ ?s1] =>
      destruct (for_each_envVar_callback w envVars s1) as [s' [E C]] end.
    exists s'. split; [exact E|]. exact C.
Qed.

(** C7: the CORS check counts one failure when [FRONTEND_URL] is not set,
    one pass when it is exactly the development origin, one pass when it
    contains [vercel.app] or [campusbites], and otherwise changes no
    counter and prints the line saying the configuration is unusual.  The
    three origins of the specification fall in the last three cases. *)
Theorem testCORSConfiguration_classes (w : World) (s : State) :
  (exists s',
     testCORSConfiguration w s = Normal tt s'
     /\ match cors_class_of (process_env w !! "FRONTEND_URL") with
        | CorsUnset =>
            testsPassed s' = testsPassed s /\ testsFailed s' = testsFailed s + 1
        | CorsDevelopment =>
            testsPassed s' = testsPassed s + 1 /\ testsFailed s' = testsFailed s
            /\ In (colors green
                     ++ (check_mark ++ u " CORS Configuration: VALID (Development)")
                     ++ colors reset) (console s')
        | CorsProduction =>
            testsPassed s' = testsPassed s + 1 /\ testsFailed s' = testsFailed s
            /\ In (colors green
                     ++ (check_mark ++ u " CORS Configuration: VALID (Production)")
                     ++ colors reset) (console s')
        | CorsUnusual =>
            testsPassed s' = testsPassed s /\ testsFailed s' = testsFailed s
            /\ In (colors yellow
                     ++ (warning_sign ++ u "  CORS Configuration: UNUSUAL")
                     ++ colors reset) (console s')
        end)
  /\ cors_class_of None = CorsUnset
  /\ cors_class_of (Some (u "http://localhost:5173")) = CorsDevelopment
  /\ cors_class_of (Some (u "https://campusbites.vercel.app")) = CorsProduction
  /\ cors_class_of (Some (u "https://example.org")) = CorsUnusual.
Proof.
  split; [|repeat split; reflexivity].
  unfold testCORSConfiguration, cors_class_of.
  rewrite (bind_normal _ _ _ _ _ (header_normal _ _ s)).
  destruct (truthy (process_env w !! "FRONTEND_URL")); run.
  - destruct (jsstring_eqb (str (process_env w !! "FRONTEND_URL"))
                (u "http://localhost:5173")); run.
    + eexists; split; [reflexivity|]. cbn [testsPassed testsFailed console].
      repeat split; in_console.
    + destruct (includes (u "vercel.app") (str (process_env w !! "FRONTEND_URL")));
        [|destruct (includes (u "campusbites") (str (process_env w !! "FRONTEND_URL")))];
        run; (eexists; split; [reflexivity|]); cbn [testsPassed testsFailed console];
        repeat split; in_console.
  - eexists; split; [reflexivity|]. cbn [testsPassed testsFailed]. split; reflexivity.
Qed.

(** C9: once the URI is set, one call of the database check changes the
    counters as the two mongoose calls go: both succeed, one pass; the
    connection fails, one failure; the connection succeeds and the
    disconnection fails, one pass and one failure. *)
Theorem testMongoDBConnection_counters (w : World) (s : State) (uri : jsstring) :
  process_env w !! "MONGODB_URI" = Some uri ->
  uri <> [] ->
  exists s',
    testMongoDBConnection w s = Normal tt s'
    /\ match mongoose_connect w uri, mongoose_disconnect w with
       | Fulfilled _, Fulfilled _ =>
           testsPassed s' = testsPassed s + 1 /\ testsFailed s' = testsFailed s
       | Fulfilled _, Rejected _ =>
           testsPassed s' = testsPassed s + 1 /\ testsFailed s' = testsFailed s + 1
       | Rejected _, _ =>
           testsPassed s' = testsPassed s /\ testsFailed s' = testsFailed s + 1
       end.
Proof.
  intros Huri Hne. unfold testMongoDBConnection.
  rewrite (bind_normal _ _ _ _ _ (header_normal _ _ s)), Huri.
  destruct uri as [|c uri']; [contradiction|]. cbn [truthy str]. run.
  destruct (mongoose_connect w (c :: uri')) as [[]|e]; run.
  - destruct (mongoose_disconnect w) as [[]|e]; run;
      eexists; (split; [reflexivity|]); cbn [testsPassed testsFailed]; split; reflexivity.
  - destruct (mongoose_disconnect w);
      eexists; (split; [reflexivity|]); cbn [testsPassed testsFailed]; split; reflexivity.
Qed.

Lemma testMongoDBConnection_counters_witness :
  exists s',
    testMongoDBConnection (failing_disconnect sample_env) initial = Normal tt s'
    /\ testsPassed s' = 1 /\ testsFailed s' = 1.
Proof.
  destruct (testMongoDBConnection_counters (failing_disconnect sample_env) initial
              (u "mongodb+srv://app:pw@cluster0.example.net/campus")
              eq_refl ltac:(discriminate))
    as [s' [E C]].
  exists s'. split; [exact E|]. exact C.
Defined.

(** ** Displayed values *)

Lemma slice_last (k : positive) (v : jsstring) :
  slice (Zneg k) v = skipn (length v - Pos.to_nat k) v.
Proof.
  unfold slice, js_length. change (Zneg k <? 0) with true. cbv iota.
  f_equal. lia.
Qed.

Lemma split_on_no_separator (c : N) (s : jsstring) :
  ~ In c s -> split_on c s = [s].
Proof.
  induction s as [|a s IH]; intros H; [reflexivity|].
  cbn [split_on].
  destruct (N.eqb a c) eqn:E.
  - apply N.eqb_eq in E. subst. exfalso. apply H. left. reflexivity.
  - rewrite IH; [reflexivity|]. intros Hin. apply H. right. exact Hin.
Qed.

Lemma split_on_first (c : N) (a rest : jsstring) :
  ~ In c a ->
  split_on c (a ++ c :: rest) = a :: split_on c rest.
Proof.
  induction a as [|x a IH]; intros H.
  - cbn [app split_on]. rewrite N.eqb_refl. reflexivity.
  - cbn [app split_on].
    destruct (N.eqb x c) eqn:E.
    + apply N.eqb_eq in E. subst. exfalso. apply H. left. reflexivity.
    + rewrite IH; [reflexivity|]. intros Hin. apply H. right. exact Hin.
Qed.




(** ** Errors and the exit status *)

(** C3: every check completes normally whatever the collaborators do; an
    awaited call that fails inside a check is caught there, counted as one
    failure and reported on the console; the script exits with status 0 in
    every world, and with a given [try] body it exits with status 1
    exactly when that body throws. *)
Theorem errors_stay_in_their_check :
  (forall (w : World) (s : State),
     Forall (fun check : M unit => exists s', check s = Normal tt s')
       [ testEnvironmentVariables w; testMongoDBConnection w; testCloudinaryAPI w;
         testResendAPI w; testJWTSecrets w; testCORSConfiguration w;
         testAPIEndpoints w ])
  /\ (forall (w : World) (s : State) (uri : jsstring) (error : JsError),
        process_env w !! "MONGODB_URI" = Some uri ->
        uri <> [] ->
        mongoose_connect w uri = Rejected error
        \/ (mongoose_connect w uri = Fulfilled tt
            /\ mongoose_disconnect w = Rejected error) ->
        exists s',
          testMongoDBConnection w s = Normal tt s'
          /\ testsFailed s' = testsFailed s + 1
          /\ In (error_line error) (console s'))
  /\ (forall (w : World) (s : State) (cloudName apiKey apiSecret : jsstring)
             (error : JsError),
        process_env w !! "CLODINARY_CLOUD_NAME" = Some cloudName ->
        process_env w !! "CLODINARY_API_KEY" = Some apiKey ->
        process_env w !! "CLODINARY_API_SECRET_KEY" = Some apiSecret ->
        cloudName <> [] -> apiKey <> [] -> apiSecret <> [] ->
        cloudinary_usage w cloudName apiKey apiSecret = Rejected error ->
        exists s',
          testCloudinaryAPI w s = Normal tt s'
          /\ testsFailed s' = testsFailed s + 1
          /\ In (error_line error) (console s'))
  /\ (forall (w : World) (s : State) (key : jsstring) (error : JsError),
        process_env w !! "RESEND_API" = Some key ->
        key <> [] ->
        fetch w (u "https://api.resend.com/emails") (resend_options key)
          = Rejected error ->
        exists s',
          testResendAPI w s = Normal tt s'
          /\ testsFailed s' = testsFailed s + 1
          /\ In (error_line error) (console s'))
  /\ (forall (w : World) (s : State) (endpoint : Endpoint) (error : JsError),
        fetch w (BASE_URL ++ ep_path endpoint) (endpoint_options endpoint)
          = Rejected error ->
        exists s',
          endpoint_body w endpoint s = Normal tt s'
          /\ testsFailed s' = testsFailed s + 1
          /\ In (error_line error) (console s'))
  /\ (forall w : World, exit_status (script w) = Some 0)
  /\ (forall w : World, script w = script_with (all_checks w) w)
  /\ (forall (body : M unit) (w : World),
        exit_status (script_with body w) =
        match body (mkState 0 0 (banner_lines w)) with
        | Normal _ _ => Some 0
        | Abrupt _ _ => Some 1
        | Exit code _ => Some code
        | Unmodelled => None
        end).
Proof.
  repeat match goal with |- _ /\ _ => split end.
  - intros w s. repeat constructor.
    + destruct (testEnvironmentVariables_grows w s) as [s' [E _]]; eauto.
    + destruct (testMongoDBConnection_grows w s) as [s' [E _]]; eauto.
    + destruct (testCloudinaryAPI_grows w s) as [s' [E _]]; eauto.
    + destruct (testResendAPI_grows w s) as [s' [E _]]; eauto.
    + destruct (testJWTSecrets_grows w s) as [s' [E _]]; eauto.
    + destruct (testCORSConfiguration_grows w s) as [s' [E _]]; eauto.
    + destruct (testAPIEndpoints_grows w s) as [s' [E _]]; eauto.
  - intros w s uri error Huri Hne Hfail. unfold testMongoDBConnection.
    rewrite (bind_normal _ _ _ _ _ (header_normal _ _ s)), Huri.
    destruct uri as [|c uri']; [contradiction|]. cbn [truthy str]. run.
    destruct Hfail as [Hc | [Hc Hd]]; rewrite Hc; run; [|rewrite Hd; run];
      (eexists; split; [reflexivity|]); cbn [testsFailed console];
      (split; [reflexivity|]); unfold error_line; in_console.
  - intros w s cloudName apiKey apiSecret error Hc Hk Hs Hcne Hkne Hsne Husage.
    unfold testCloudinaryAPI.
    rewrite (bind_normal _ _ _ _ _ (header_normal _ _ s)), Hc, Hk, Hs.
    destruct cloudName as [|c1 n1]; [contradiction|].
    destruct apiKey as [|c2 n2]; [contradiction|].
    destruct apiSecret as [|c3 n3]; [contradiction|].
    cbn [truthy str]. run. rewrite Husage. run.
    eexists; split; [reflexivity|]. cbn [testsFailed console].
    split; [reflexivity|]. unfold error_line. in_console.
  - intros w s key error Hkey Hne Hfetch. unfold testResendAPI.
    rewrite (bind_normal _ _ _ _ _ (header_normal _ _ s)), Hkey.
    destruct key as [|c k]; [contradiction|]. cbn [truthy str]. run.
    rewrite Hfetch. run.
    eexists; split; [reflexivity|]. cbn [testsFailed console].
    split; [reflexivity|]. unfold error_line. in_console.
  - intros w s endpoint error Hfetch. unfold endpoint_body. run.
    rewrite Hfetch. run.
    eexists; split; [reflexivity|]. cbn [testsFailed console].
    split; [reflexivity|]. unfold error_line. in_console.
  - intros w. destruct (script_runs w) as [s [_ [_ [_ [_ [_ R]]]]]].
    rewrite R. reflexivity.
  - reflexivity.
  - apply script_with_status.
Qed.

Lemma errors_stay_in_their_check_witness :
  exists s',
    testResendAPI (unreachable sample_env) initial = Normal tt s'
    /\ testsFailed s' = 1
    /\ In (error_line (mkError (Some (u "connect ECONNREFUSED")))) (console s').
Proof.
  destruct errors_stay_in_their_check as [_ [_ [_ [H _]]]].
  destruct (H (unreachable sample_env) initial (u "re_live_0123456789")
              (mkError (Some (u "connect ECONNREFUSED")))
              eq_refl ltac:(discriminate) eq_refl)
    as [s' [E C]].
  exists s'. split; [exact E|]. exact C.
Defined.

(** ** The order routes *)

(** C8: the router holds two bindings, POST [/cash-on-delivery] to the
    cash-on-delivery controller and GET [/order-list] to the order-details
    controller, each with [auth] before the controller; whatever request is
    served, the first handler that runs is [auth], and a controller runs
    only after [auth] has called [next()]. *)
Theorem orderRouter_bindings :
  OrderRoute.orderRouter =
    [ OrderRoute.mkBinding OrderRoute.POST "/cash-on-delivery"
        [OrderRoute.auth; OrderRoute.CashOnDeliveryOrderController];
      OrderRoute.mkBinding OrderRoute.GET "/order-list"
        [OrderRoute.auth; OrderRoute.getOrderDetailsController] ]
  /\ forall (Request : Type)
            (matches : OrderRoute.Binding -> Request -> bool)
            (calls_next : OrderRoute.Handler -> Request -> bool)
            (req : Request),
       let ran := OrderRoute.handle matches calls_next OrderRoute.orderRouter req in
       match ran with
       | [] => True
       | first :: _ => first = OrderRoute.auth
       end
       /\ forall h, In h ran -> h <> OrderRoute.auth ->
            calls_next OrderRoute.auth req = true
            /\ exists before after,
                 ran = before ++ [OrderRoute.auth; h] ++ after.
Proof.
  split; [reflexivity|].
  intros Request matches calls_next req.
  cbv beta iota zeta delta
    [OrderRoute.orderRouter OrderRoute.get OrderRoute.post OrderRoute.Router
     OrderRoute.handle OrderRoute.run_stack OrderRoute.stack app].
  destruct (matches _ req), (matches _ req),
    (calls_next OrderRoute.auth req),
    (calls_next OrderRoute.CashOnDeliveryOrderController req),
    (calls_next OrderRoute.getOrderDetailsController req);
    cbn [app]; (split; [exact I || reflexivity|]);
    intros h Hin Hh; cbn [In] in Hin;
    repeat match goal with
           | H : _ \/ _ |- _ => destruct H
           | H : False |- _ => destruct H
           end; subst; try congruence;
    (split; [reflexivity|]);
    first [ exists [], []; reflexivity
          | exists [], [OrderRoute.auth]; reflexivity
          | exists [], [OrderRoute.auth; OrderRoute.getOrderDetailsController]; reflexivity
          | exists [OrderRoute.auth; OrderRoute.CashOnDeliveryOrderController], []; reflexivity ].
Qed.

Lemma orderRouter_bindings_witness :
  OrderRoute.handle sample_matches (fun _ _ => true) OrderRoute.orderRouter
    (OrderRoute.POST, "/cash-on-delivery")
  = [OrderRoute.auth; OrderRoute.CashOnDeliveryOrderController]
  /\ exists before after,
       OrderRoute.handle sample_matches (fun _ _ => true) OrderRoute.orderRouter
         (OrderRoute.POST, "/cash-on-delivery")
       = before ++ [OrderRoute.auth; OrderRoute.CashOnDeliveryOrderController] ++ after.
Proof.
  split; [reflexivity|].
  apply (proj2 (proj2 orderRouter_bindings _ sample_matches (fun _ _ => true)
                  (OrderRoute.POST, "/cash-on-delivery"))
           OrderRoute.CashOnDeliveryOrderController).
  - right. left. reflexivity.
  - discriminate.
Defined.

(** * Further properties *)

(** ** What every check adds to the counters *)

Ltac finish_adds :=
  eexists; (split; [reflexivity|]); unfold adds; cbn [testsPassed testsFailed fst snd];
  split; lia.

Lemma testEnvironmentVariables_adds (w : World) (s : State) :
  exists s', testEnvironmentVariables w s = Normal tt s' /\ adds (listing_counts w) s s'.
Proof.
  unfold testEnvironmentVariables.
  rewrite (bind_normal _ _ _ _ _ (header_normal _ _ s)).
  match goal with |- context [for_each envVars _ ?s1] =>
    destruct (for_each_envVar_callback w envVars s1) as [s' [E C]] end.
  exists s'. split; [exact E|]. exact C.
Qed.

Lemma testMongoDBConnection_adds (w : World) (s : State) :
  exists s', testMongoDBConnection w s = Normal tt s' /\ adds (database_counts w) s s'.
Proof.
  unfold testMongoDBConnection, database_counts.
  rewrite (bind_normal _ _ _ _ _ (header_normal _ _ s)).
  destruct (truthy (process_env w !! "MONGODB_URI")); run; [|finish_adds].
  destruct (mongoose_connect w _) as [[]|e]; run.
  - destruct (mongoose_disconnect w) as [[]|e]; run; finish_adds.
  - destruct (mongoose_disconnect w); finish_adds.
Qed.

Lemma testCloudinaryAPI_adds (w : World) (s : State) :
  exists s', testCloudinaryAPI w s = Normal tt s' /\ adds (storage_counts w) s s'.
Proof.
  unfold testCloudinaryAPI, storage_counts.
  rewrite (bind_normal _ _ _ _ _ (header_normal _ _ s)).
  destruct (truthy (process_env w !! "CLODINARY_CLOUD_NAME")),
           (truthy (process_env w !! "CLODINARY_API_KEY")),
           (truthy (process_env w !! "CLODINARY_API_SECRET_KEY")); run;
    try finish_adds.
  destruct (cloudinary_usage w _ _ _) as [[]|e]; run; finish_adds.
Qed.

Lemma testResendAPI_adds (w : World) (s : State) :
  exists s', testResendAPI w s = Normal tt s' /\ adds (email_counts w) s s'.
Proof.
  unfold testResendAPI, email_counts.
  rewrite (bind_normal _ _ _ _ _ (header_normal _ _ s)).
  destruct (truthy (process_env w !! "RESEND_API")); run; [|finish_adds].
  destruct (fetch w _ _) as [response|e]; run; [|finish_adds].
  unfold ok.
  destruct (200 <=? status response) eqn:Elo;
    destruct (status response <? 300) eqn:Ehi;
    destruct (status response =? 200) eqn:E200;
    destruct (status response =? 401) eqn:E401;
    run; try lia; finish_adds.
Qed.

Lemma testJWTSecrets_adds (w : World) (s : State) :
  exists s', testJWTSecrets w s = Normal tt s' /\ adds (secrets_counts w) s s'.
Proof.
  unfold testJWTSecrets, secrets_counts, plus2.
  rewrite (bind_normal _ _ _ _ _ (header_normal _ _ s)).
  destruct (truthy (process_env w !! "SECRET_KEY_ACCESS_TOKEN")),
           (truthy (process_env w !! "SECRET_KEY_REFRESH_TOKEN")); run;
    try finish_adds.
  destruct (20 <=? js_length (str (process_env w !! "SECRET_KEY_ACCESS_TOKEN"))),
           (20 <=? js_length (str (process_env w !! "SECRET_KEY_REFRESH_TOKEN"))); run;
    finish_adds.
Qed.

Lemma testCORSConfiguration_adds (w : World) (s : State) :
  exists s', testCORSConfiguration w s = Normal tt s' /\ adds (cors_counts w) s s'.
Proof.
  unfold testCORSConfiguration, cors_counts, cors_class_of.
  rewrite (bind_normal _ _ _ _ _ (header_normal _ _ s)).
  destruct (truthy (process_env w !! "FRONTEND_URL")); run; [|finish_adds].
  destruct (jsstring_eqb _ _); run; [finish_adds|].
  destruct (includes (u "vercel.app") (str (process_env w !! "FRONTEND_URL")));
    run; [finish_adds|].
  destruct (includes (u "campusbites") (str (process_env w !! "FRONTEND_URL")));
    run; finish_adds.
Qed.

Lemma endpoint_body_adds (w : World) (endpoint : Endpoint) (s : State) :
  exists s', endpoint_body w endpoint s = Normal tt s' /\ adds (probe_counts w endpoint) s s'.
Proof.
  unfold endpoint_body, probe_counts, probe. run.
  destruct (fetch w _ _) as [response|e]; run; [|finish_adds].
  destruct (ok response); run; finish_adds.
Qed.

Lemma for_each_endpoint_body_adds (w : World) (xs : list Endpoint) (s : State) :
  exists s',
    for_each xs (endpoint_body w) s = Normal tt s'
    /\ adds (fold_right (fun endpoint acc => plus2 (probe_counts w endpoint) acc) (0, 0) xs)
         s s'.
Proof.
  revert s. induction xs as [|x xs IH]; intros s.
  - exists s. split; [reflexivity|]. unfold adds. cbn. lia.
  - destruct (endpoint_body_adds w x s) as [s1 [E1 A1]].
    destruct (IH s1) as [s2 [E2 A2]].
    exists s2. split.
    + cbn [for_each]. rewrite (bind_normal _ _ _ _ _ E1). exact E2.
    + revert A1 A2. unfold adds, plus2. cbn [fold_right fst snd]. lia.
Qed.

Lemma testAPIEndpoints_adds (w : World) (s : State) :
  exists s', testAPIEndpoints w s = Normal tt s' /\ adds (probes_counts w) s s'.
Proof.
  unfold testAPIEndpoints.
  rewrite (bind_normal _ _ _ _ _ (header_normal _ _ s)).
  match goal with |- context [for_each endpoints _ ?s1] =>
    destruct (for_each_endpoint_body_adds w endpoints s1) as [s' [E A]] end.
  exists s'. split; [exact E|]. exact A.
Qed.

Lemma checks_adds (w : World) (s : State) :
  exists s', checks w s = Normal tt s' /\ adds (run_counts w) s s'.
Proof.
  unfold checks.
  destruct (testEnvironmentVariables_adds w s) as [s1 [E1 A1]].
  destruct (testMongoDBConnection_adds w s1) as [s2 [E2 A2]].
  destruct (testCloudinaryAPI_adds w s2) as [s3 [E3 A3]].
  destruct (testResendAPI_adds w s3) as [s4 [E4 A4]].
  destruct (testJWTSecrets_adds w s4) as [s5 [E5 A5]].
  destruct (testCORSConfiguration_adds w s5) as [s6 [E6 A6]].
  destruct (testAPIEndpoints_adds w s6) as [s7 [E7 A7]].
  exists s7. split.
  - rewrite (bind_normal _ _ _ _ _ E1), (bind_normal _ _ _ _ _ E2),
      (bind_normal _ _ _ _ _ E3), (bind_normal _ _ _ _ _ E4),
      (bind_normal _ _ _ _ _ E5), (bind_normal _ _ _ _ _ E6).
    exact E7.
  - revert A1 A2 A3 A4 A5 A6 A7. unfold adds, run_counts, plus2.
    cbn [fst snd]. lia.
Qed.

(** ** The whole run, by its counters *)

Lemma filter_counts_bounds {A} (set req : A -> bool) (xs : list A) :
  (length (List.filter (fun e => negb (set e) && req e) xs) <= length (List.filter req xs))%nat
  /\ (length (List.filter req xs)
      <= length (List.filter set xs)
         + length (List.filter (fun e => negb (set e) && req e) xs)
      <= length xs)%nat.
Proof.
  induction xs as [|x xs IH]; [cbn; lia|].
  cbn [List.filter]. destruct (set x), (req x); cbn [negb andb length]; lia.
Qed.

Lemma filter_counts_le {A} (p q : A -> bool) (xs : list A) :
  (forall x, In x xs -> p x = true -> q x = true) ->
  (length (List.filter p xs) <= length (List.filter q xs))%nat.
Proof.
  induction xs as [|x xs IH]; intros H; [cbn; lia|].
  assert (IH' := IH (fun y Hy => H y (or_intror Hy))).
  cbn [List.filter].
  destruct (p x) eqn:Ep.
  - rewrite (H x (or_introl eq_refl) Ep). cbn [length]. lia.
  - destruct (q x); cbn [length]; lia.
Qed.

Lemma listing_counts_bounds (w : World) :
  0 <= fst (listing_counts w) /\ 0 <= snd (listing_counts w) <= 8
  /\ 8 <= fst (listing_counts w) + snd (listing_counts w) <= 10.
Proof.
  unfold listing_counts. cbn [fst snd].
  pose proof (filter_counts_bounds (fun e => truthy (process_env w !! name e))
                required envVars) as H.
  cbv beta in H.
  change (length (List.filter required envVars)) with 8%nat in H.
  change (length envVars) with 10%nat in H.
  lia.
Qed.

Lemma probes_counts_bounds (w : World) :
  0 <= fst (probes_counts w) /\ 0 <= snd (probes_counts w)
  /\ fst (probes_counts w) + snd (probes_counts w) <= 3.
Proof.
  unfold probes_counts, endpoints, plus2, probe_counts.
  cbn [fold_right].
  repeat match goal with
         | |- context [probe w ?e] => destruct (probe w e) as [[?]|?]
         end;
    repeat match goal with
           | |- context [ok ?r] => destruct (ok r)
           end;
    cbn [fst snd]; lia.
Qed.

Lemma database_counts_cases (w : World) :
  database_counts w = (1, 0) \/ database_counts w = (1, 1) \/ database_counts w = (0, 1).
Proof.
  unfold database_counts.
  destruct (truthy _); [|tauto].
  destruct (mongoose_connect w _); [|tauto].
  destruct (mongoose_disconnect w); tauto.
Qed.

Lemma storage_counts_cases (w : World) :
  storage_counts w = (1, 0) \/ storage_counts w = (0, 1).
Proof.
  unfold storage_counts.
  destruct (_ && _); [|tauto].
  destruct (cloudinary_usage w _ _ _); tauto.
Qed.

Lemma email_counts_cases (w : World) :
  email_counts w = (1, 0) \/ email_counts w = (0, 1).
Proof.
  unfold email_counts.
  destruct (truthy _); [|tauto].
  destruct (fetch w _ _); [|tauto].
  destruct (_ || _); tauto.
Qed.

Lemma secrets_counts_cases (w : World) :
  secrets_counts w = (2, 0) \/ secrets_counts w = (1, 1)
  \/ secrets_counts w = (0, 2) \/ secrets_counts w = (0, 1).
Proof.
  unfold secrets_counts, plus2.
  destruct (_ && _); [|tauto].
  destruct (20 <=? _), (20 <=? _); cbn; tauto.
Qed.

Lemma cors_counts_cases (w : World) :
  cors_counts w = (1, 0) \/ cors_counts w = (0, 1) \/ cors_counts w = (0, 0).
Proof. unfold cors_counts. destruct (cors_class_of _); tauto. Qed.

Ltac count_cases w :=
  pose proof (listing_counts_bounds w);
  pose proof (probes_counts_bounds w);
  destruct (database_counts_cases w) as [?HD | [?HD | ?HD]];
  destruct (storage_counts_cases w) as [?HS | ?HS];
  destruct (email_counts_cases w) as [?HE | ?HE];
  destruct (secrets_counts_cases w) as [?HJ | [?HJ | [?HJ | ?HJ]]];
  destruct (cors_counts_cases w) as [?HC | [?HC | ?HC]].

(** The two secrets are either counted as unset by the listing or measured
    by the secrets check, never both. *)
Lemma listing_secrets_bound (w : World) :
  snd (listing_counts w) + snd (secrets_counts w) <= 9.
Proof.
  pose proof (listing_counts_bounds w) as BL.
  unfold secrets_counts, plus2.
  destruct (truthy (process_env w !! "SECRET_KEY_ACCESS_TOKEN")) eqn:Ea;
    [|cbn [andb snd]; lia].
  destruct (truthy (process_env w !! "SECRET_KEY_REFRESH_TOKEN")) eqn:Er;
    [|cbn [andb snd]; lia].
  cbn [andb].
  assert (L : snd (listing_counts w) <= 6).
  { clear BL. unfold listing_counts. cbn [snd].
    pose proof (filter_counts_le
                  (fun e => negb (truthy (process_env w !! name e)) && required e)
                  (fun e => required e
                            && negb (String.eqb (name e) "SECRET_KEY_ACCESS_TOKEN")
                            && negb (String.eqb (name e) "SECRET_KEY_REFRESH_TOKEN"))
                  envVars) as M.
    cbv beta in M.
    change (length (List.filter _ envVars)) with 6%nat in M at 2.
    assert (X : forall e, In e envVars ->
                  negb (truthy (process_env w !! name e)) && required e = true ->
                  required e
                  && negb (String.eqb (name e) "SECRET_KEY_ACCESS_TOKEN")
                  && negb (String.eqb (name e) "SECRET_KEY_REFRESH_TOKEN") = true).
    { intros e Hin. cbn [In envVars] in Hin.
      repeat match goal with
             | H : _ \/ _ |- _ => destruct H as [H | H]
             | H : False |- _ => destruct H
             end; subst e; cbn [name required];
        rewrite ?Ea, ?Er, ?andb_false_r; intros Hx;
        first [ discriminate Hx | reflexivity ]. }
    specialize (M X). lia. }
  destruct (20 <=? _), (20 <=? _); cbn [fst snd]; lia.
Qed.

Lemma run_counts_bounds (w : World) :
  0 <= fst (run_counts w) <= 19 /\ 0 <= snd (run_counts w) <= 16
  /\ 12 <= fst (run_counts w) + snd (run_counts w) <= 20.
Proof.
  pose proof (listing_secrets_bound w) as BLJ.
  unfold run_counts, plus2. cbn [fst snd].
  count_cases w; rewrite HD, HS, HE, HJ, HC in *; cbn [fst snd] in *; lia.
Qed.

(** The state a run ends in: the counters are [run_counts], and the last
    lines are the report for them. *)
Lemma script_outcome (w : World) :
  exists s,
    checks w (mkState 0 0 (banner_lines w)) = Normal tt s
    /\ testsPassed s = fst (run_counts w)
    /\ testsFailed s = snd (run_counts w)
    /\ script w =
       Normal tt
         (mkState (fst (run_counts w)) (snd (run_counts w))
            (console s
             ++ report_lines (fst (run_counts w)) (snd (run_counts w))
                  (rate_text (fst (run_counts w)) (snd (run_counts w)))
                  (if rate_at_least_80 (fst (run_counts w)) (snd (run_counts w))
                   then green else red)
                  (spec_verdict (fst (run_counts w)) (snd (run_counts w))))).
Proof.
  destruct (checks_adds w (mkState 0 0 (banner_lines w))) as [s [E [P F]]].
  cbn [testsPassed testsFailed] in P, F.
  exists s. split; [exact E|]. split; [lia|]. split; [lia|].
  pose proof (run_counts_bounds w) as B.
  unfold script, runAllTests, runAllTests_with, try_catch.
  rewrite (bind_normal _ _ _ _ _ (banner_normal w initial)).
  change (mkState (testsPassed initial) (testsFailed initial)
            (console initial ++ banner_lines w))
    with (mkState 0 0 (banner_lines w)).
  rewrite all_checks_eq, (bind_normal _ _ _ _ _ E).
  destruct s as [p f c]. cbn [testsPassed testsFailed console] in *.
  replace p with (fst (run_counts w)) by lia.
  replace f with (snd (run_counts w)) by lia.
  rewrite generateReport_agrees; [reflexivity|].
  apply report_agrees_small; lia.
Qed.

(** X5: every run ends with between 12 and 20 counted results, at most 19
    passes and at most 16 failures, so the report always divides by a
    positive total and prints the rate with two decimals.  Both extremes
    occur: 19 passes and no failure when everything is set and answers, 16
    failures and no pass when nothing is set and nothing answers. *)
Theorem run_counts_between_12_and_20 :
  (forall w : World,
     exists s',
       script w = Normal tt s'
       /\ 0 <= testsPassed s' <= 19
       /\ 0 <= testsFailed s' <= 16
       /\ 12 <= testsPassed s' + testsFailed s' <= 20
       /\ passPercentage (testsPassed s') (testsPassed s' + testsFailed s')
          = Some (JString (rate_text (testsPassed s') (testsFailed s'))))
  /\ (exists s', script (calm full_env) = Normal tt s'
                 /\ testsPassed s' = 19 /\ testsFailed s' = 0)
  /\ (exists s', script bare_world = Normal tt s'
                 /\ testsPassed s' = 0 /\ testsFailed s' = 16).
Proof.
  split; [|split].
  - intros w.
    destruct (script_outcome w) as [s [_ [_ [_ R]]]].
    pose proof (run_counts_bounds w) as B.
    eexists. split; [exact R|]. cbn [testsPassed testsFailed].
    split; [lia|]. split; [lia|]. split; [lia|].
    assert (A : report_agrees (fst (run_counts w)) (snd (run_counts w)) = true)
      by (apply report_agrees_small; lia).
    unfold report_agrees in A. unfold passPercentage in *.
    destruct (0 <? fst (run_counts w) + snd (run_counts w)) eqn:Epos; [|lia].
    destruct (toFixed 2 _) as [t|]; [|discriminate].
    cbn [fmap option_fmap option_map] in *.
    cbn [ToString] in A.
    destruct (at_least_80 (JString t)); [|discriminate].
    apply andb_true_iff in A. destruct A as [A _].
    apply andb_true_iff in A. destruct A as [A _].
    apply bool_decide_eq_true in A. rewrite A. reflexivity.
  - destruct (script_outcome (calm full_env)) as [s [_ [_ [_ R]]]].
    eexists. split; [exact R|]. split; vm_compute; reflexivity.
  - destruct (script_outcome bare_world) as [s [_ [_ [_ R]]]].
    eexists. split; [exact R|]. split; vm_compute; reflexivity.
Qed.

Lemma report_has_verdict (p f : Z) (shown : jsstring) (c : color) (v : verdict)
    (before : list jsstring) :
  In (verdict_line v) (before ++ report_lines p f shown c v).
Proof.
  apply in_or_app. right. unfold report_lines. cbn [In]. do 7 right. left. reflexivity.
Qed.

Lemma filter_counts_member {A} (keep : A -> bool) (xs : list A) (x : A) :
  In x xs -> keep x = true -> (1 <= length (List.filter keep xs))%nat.
Proof.
  induction xs as [|y xs IH]; [contradiction|].
  intros [-> | Hin] Hk; cbn [List.filter].
  - rewrite Hk. cbn [length]. lia.
  - destruct (keep y); cbn [length]; [lia | auto].
Qed.

(** X6: when none of the required variables is set, a run counts at least
    13 failures and at most 5 passes, prints the verdict of critical
    failures, and still exits with status 0. *)
Theorem nothing_configured_is_critical (w : World) :
  (forall e, In e envVars -> required e = true ->
             truthy (process_env w !! name e) = false) ->
  exists s',
    script w = Normal tt s'
    /\ 13 <= testsFailed s'
    /\ testsPassed s' <= 5
    /\ In (verdict_line CriticalFailures) (console s')
    /\ exit_status (script w) = Some 0.
Proof.
  intros H.
  assert (H1 := H (mkEnvVar "MONGODB_URI" true true) ltac:(cbn; tauto) eq_refl).
  assert (H2 := H (mkEnvVar "FRONTEND_URL" true false) ltac:(cbn; tauto) eq_refl).
  assert (H3 := H (mkEnvVar "CLODINARY_CLOUD_NAME" true false) ltac:(cbn; tauto) eq_refl).
  assert (H6 := H (mkEnvVar "RESEND_API" true true) ltac:(cbn; tauto) eq_refl).
  assert (H7 := H (mkEnvVar "SECRET_KEY_ACCESS_TOKEN" true true) ltac:(cbn; tauto) eq_refl).
  cbn [name] in H1, H2, H3, H6, H7.
  assert (L : snd (listing_counts w) = 8).
  { unfold listing_counts. cbn [snd].
    change 8 with (Z.of_nat (length (List.filter required envVars))). f_equal. f_equal.
    apply filter_ext_in. intros e Hin.
    destruct (required e) eqn:Er; [|apply andb_false_r].
    rewrite (H e Hin Er). reflexivity. }
  assert (D : database_counts w = (0, 1)) by (unfold database_counts; rewrite H1; reflexivity).
  assert (S : storage_counts w = (0, 1)) by (unfold storage_counts; rewrite H3; reflexivity).
  assert (E : email_counts w = (0, 1)) by (unfold email_counts; rewrite H6; reflexivity).
  assert (J : secrets_counts w = (0, 1)) by (unfold secrets_counts; rewrite H7; reflexivity).
  assert (C : cors_counts w = (0, 1))
    by (unfold cors_counts, cors_class_of; rewrite H2; reflexivity).
  pose proof (listing_counts_bounds w) as BL.
  pose proof (probes_counts_bounds w) as BP.
  assert (F : 13 <= snd (run_counts w) /\ 0 <= fst (run_counts w) <= 5).
  { unfold run_counts, plus2. cbn [fst snd]. rewrite D, S, E, J, C. cbn [fst snd]. lia. }
  destruct (script_outcome w) as [s [_ [_ [_ R]]]].
  eexists. split; [exact R|]. cbn [testsPassed testsFailed console].
  split; [lia|]. split; [lia|]. split.
  - replace (spec_verdict (fst (run_counts w)) (snd (run_counts w)))
      with CriticalFailures; [apply report_has_verdict|].
    unfold spec_verdict, rate_at_least_80.
    destruct (snd (run_counts w) =? 0) eqn:E0; [lia|].
    destruct (80 * _ <=? _) eqn:E80; [lia | reflexivity].
  - rewrite R. reflexivity.
Qed.

Lemma nothing_configured_is_critical_witness :
  exists s',
    script bare_world = Normal tt s'
    /\ 13 <= testsFailed s'
    /\ testsPassed s' <= 5
    /\ In (verdict_line CriticalFailures) (console s')
    /\ exit_status (script bare_world) = Some 0.
Proof.
  apply nothing_configured_is_critical.
  intros e _ _. reflexivity.
Defined.

(** X7: an unset required variable is counted twice or more, once in the
    listing and once by the check that reads it: a run in which any
    required variable is not set ends with at least 2 failures. *)
Theorem missing_variable_counts_twice (w : World) (e : EnvVar) :
  In e envVars ->
  required e = true ->
  truthy (process_env w !! name e) = false ->
  exists s', script w = Normal tt s' /\ 2 <= testsFailed s'.
Proof.
  intros Hin Hreq Hunset.
  assert (L : 1 <= snd (listing_counts w)).
  { unfold listing_counts. cbn [snd].
    pose proof (filter_counts_member
                  (fun e => negb (truthy (process_env w !! name e)) && required e)
                  envVars e Hin) as M.
    cbv beta in M. rewrite Hunset, Hreq in M. specialize (M eq_refl). lia. }
  assert (K : 1 <= snd (database_counts w) + snd (storage_counts w)
                   + snd (email_counts w) + snd (secrets_counts w)
                   + snd (cors_counts w)).
  { assert (ND : 0 <= snd (database_counts w))
      by (destruct (database_counts_cases w) as [X | [X | X]]; rewrite X; cbn; lia).
    assert (NS : 0 <= snd (storage_counts w))
      by (destruct (storage_counts_cases w) as [X | X]; rewrite X; cbn; lia).
    assert (NE : 0 <= snd (email_counts w))
      by (destruct (email_counts_cases w) as [X | X]; rewrite X; cbn; lia).
    assert (NJ : 0 <= snd (secrets_counts w))
      by (destruct (secrets_counts_cases w) as [X | [X | [X | X]]]; rewrite X; cbn; lia).
    assert (NC : 0 <= snd (cors_counts w))
      by (destruct (cors_counts_cases w) as [X | [X | X]]; rewrite X; cbn; lia).
    cbn [In envVars] in Hin.
    repeat match goal with
           | H : _ \/ _ |- _ => destruct H as [H | H]
           | H : False |- _ => destruct H
           end; subst e; cbn [name required] in *; try discriminate.
    - assert (X : database_counts w = (0, 1))
        by (unfold database_counts; rewrite Hunset; reflexivity).
      rewrite X in *. cbn [snd] in *. lia.
    - assert (X : cors_counts w = (0, 1))
        by (unfold cors_counts, cors_class_of; rewrite Hunset; reflexivity).
      rewrite X in *. cbn [snd] in *. lia.
    - assert (X : storage_counts w = (0, 1))
        by (unfold storage_counts; rewrite Hunset; reflexivity).
      rewrite X in *. cbn [snd] in *. lia.
    - assert (X : storage_counts w = (0, 1)).
      { unfold storage_counts. rewrite Hunset. rewrite andb_false_r. reflexivity. }
      rewrite X in *. cbn [snd] in *. lia.
    - assert (X : storage_counts w = (0, 1)).
      { unfold storage_counts. rewrite Hunset. rewrite andb_false_r. reflexivity. }
      rewrite X in *. cbn [snd] in *. lia.
    - assert (X : email_counts w = (0, 1))
        by (unfold email_counts; rewrite Hunset; reflexivity).
      rewrite X in *. cbn [snd] in *. lia.
    - assert (X : secrets_counts w = (0, 1))
        by (unfold secrets_counts; rewrite Hunset; reflexivity).
      rewrite X in *. cbn [snd] in *. lia.
    - assert (X : secrets_counts w = (0, 1)).
      { unfold secrets_counts. rewrite Hunset. rewrite andb_false_r. reflexivity. }
      rewrite X in *. cbn [snd] in *. lia. }
  pose proof (probes_counts_bounds w) as BP.
  destruct (script_outcome w) as [s [_ [_ [_ R]]]].
  eexists. split; [exact R|]. cbn [testsFailed].
  unfold run_counts, plus2. cbn [fst snd]. lia.
Qed.

Lemma missing_variable_counts_twice_witness :
  exists s',
    script (calm (delete "RESEND_API" complete_env)) = Normal tt s'
    /\ 2 <= testsFailed s'.
Proof.
  apply (missing_variable_counts_twice (calm (delete "RESEND_API" complete_env))
           (mkEnvVar "RESEND_API" true true)).
  - cbn. tauto.
  - reflexivity.
  - reflexivity.
Defined.

(** X8: results that are only warnings do not count.  When every required
    variable is set, both secrets have 20 characters or more, mongoose and
    cloudinary answer, the email service answers with a 2xx status or 401
    and the local server answers at all, the run counts no failure and
    prints the all-passed verdict, whatever the origin in [FRONTEND_URL] is
    and whatever statuses the local server answers with. *)
Theorem warnings_do_not_count (w : World) :
  (forall e, In e envVars -> required e = true ->
             truthy (process_env w !! name e) = true) ->
  mongoose_connect w (str (process_env w !! "MONGODB_URI")) = Fulfilled tt ->
  mongoose_disconnect w = Fulfilled tt ->
  cloudinary_usage w (str (process_env w !! "CLODINARY_CLOUD_NAME"))
    (str (process_env w !! "CLODINARY_API_KEY"))
    (str (process_env w !! "CLODINARY_API_SECRET_KEY")) = Fulfilled tt ->
  (exists response,
     fetch w (u "https://api.resend.com/emails")
       (resend_options (str (process_env w !! "RESEND_API"))) = Fulfilled response
     /\ (200 <= status response < 300 \/ status response = 401)) ->
  20 <= js_length (str (process_env w !! "SECRET_KEY_ACCESS_TOKEN")) ->
  20 <= js_length (str (process_env w !! "SECRET_KEY_REFRESH_TOKEN")) ->
  (forall endpoint, In endpoint endpoints -> exists response, probe w endpoint = Fulfilled response) ->
  exists s',
    script w = Normal tt s'
    /\ testsFailed s' = 0
    /\ In (verdict_line AllPassed) (console s').
Proof.
  intros H Hconnect Hdisconnect Husage [response [Hfetch Hstatus]] Ha Hr Hprobe.
  assert (H1 := H (mkEnvVar "MONGODB_URI" true true) ltac:(cbn; tauto) eq_refl).
  assert (H2 := H (mkEnvVar "FRONTEND_URL" true false) ltac:(cbn; tauto) eq_refl).
  assert (H3 := H (mkEnvVar "CLODINARY_CLOUD_NAME" true false) ltac:(cbn; tauto) eq_refl).
  assert (H4 := H (mkEnvVar "CLODINARY_API_KEY" true false) ltac:(cbn; tauto) eq_refl).
  assert (H5 := H (mkEnvVar "CLODINARY_API_SECRET_KEY" true true) ltac:(cbn; tauto) eq_refl).
  assert (H6 := H (mkEnvVar "RESEND_API" true true) ltac:(cbn; tauto) eq_refl).
  assert (H7 := H (mkEnvVar "SECRET_KEY_ACCESS_TOKEN" true true) ltac:(cbn; tauto) eq_refl).
  assert (H8 := H (mkEnvVar "SECRET_KEY_REFRESH_TOKEN" true true) ltac:(cbn; tauto) eq_refl).
  cbn [name] in H1, H2, H3, H4, H5, H6, H7, H8.
  assert (L : snd (listing_counts w) = 0).
  { unfold listing_counts. cbn [snd].
    change 0 with (Z.of_nat (length (List.filter (fun _ : EnvVar => false) envVars))).
    f_equal. f_equal. apply filter_ext_in. intros e Hin.
    destruct (required e) eqn:Er; [|apply andb_false_r].
    rewrite (H e Hin Er). reflexivity. }
  assert (D : database_counts w = (1, 0))
    by (unfold database_counts; rewrite H1, Hconnect, Hdisconnect; reflexivity).
  assert (S : storage_counts w = (1, 0))
    by (unfold storage_counts; rewrite H3, H4, H5, Husage; reflexivity).
  assert (E : email_counts w = (1, 0)).
  { unfold email_counts. rewrite H6, Hfetch. unfold ok.
    destruct ((200 <=? status response) && (status response <? 300)
              || (status response =? 401)) eqn:X; [reflexivity | lia]. }
  assert (J : secrets_counts w = (2, 0)).
  { unfold secrets_counts. rewrite H7, H8. cbn [andb].
    destruct (20 <=? js_length (str (process_env w !! "SECRET_KEY_ACCESS_TOKEN"))) eqn:X1;
      [|lia].
    destruct (20 <=? js_length (str (process_env w !! "SECRET_KEY_REFRESH_TOKEN"))) eqn:X2;
      [reflexivity | lia]. }
  assert (C : snd (cors_counts w) = 0).
  { unfold cors_counts, cors_class_of. rewrite H2. cbn [negb].
    destruct (jsstring_eqb _ _); [reflexivity|].
    destruct (_ || _); reflexivity. }
  assert (P : snd (probes_counts w) = 0).
  { unfold probes_counts, endpoints, plus2, probe_counts. cbn [fold_right].
    repeat match goal with
           | |- context [probe w ?e] =>
               let r := fresh "r" in
               let Hr := fresh "Hr" in
               destruct (Hprobe e ltac:(cbn; tauto)) as [r Hr]; rewrite Hr;
               destruct (ok r)
           end; reflexivity. }
  assert (F : snd (run_counts w) = 0).
  { unfold run_counts, plus2. cbn [fst snd]. rewrite D, S, E, J. cbn [fst snd]. lia. }
  destruct (script_outcome w) as [s [_ [_ [_ R]]]].
  eexists. split; [exact R|]. cbn [testsFailed console]. split; [exact F|].
  replace (spec_verdict (fst (run_counts w)) (snd (run_counts w))) with AllPassed;
    [apply report_has_verdict|].
  unfold spec_verdict. rewrite F. reflexivity.
Qed.

Lemma warnings_do_not_count_witness :
  cors_class_of (process_env server_down_world !! "FRONTEND_URL") = CorsUnusual
  /\ Forall (fun endpoint => probe server_down_world endpoint = Fulfilled (mkResponse 500))
       endpoints
  /\ exists s',
       script server_down_world = Normal tt s'
       /\ testsFailed s' = 0
       /\ In (verdict_line AllPassed) (console s').
Proof.
  split; [reflexivity|]. split; [repeat constructor|].
  apply warnings_do_not_count.
  - intros e Hin Hreq. cbn [In envVars] in Hin.
    repeat match goal with
           | H : _ \/ _ |- _ => destruct H as [H | H]
           | H : False |- _ => destruct H
           end; subst e; try discriminate; reflexivity.
  - reflexivity.
  - reflexivity.
  - reflexivity.
  - exists (mkResponse 200). split; [reflexivity|]. left. cbn. lia.
  - vm_compute. discriminate.
  - vm_compute. discriminate.
  - intros endpoint Hin. exists (mkResponse 500). cbn [In endpoints] in Hin.
    repeat match goal with
           | H : _ \/ _ |- _ => destruct H as [H | H]
           | H : False |- _ => destruct H
           end; subst endpoint; reflexivity.
Defined.

(** ** More on single checks *)

(** X1: the object-storage check changes exactly one counter by one: a pass
    when the three credentials are set and the usage call succeeds, a
    failure when a credential is missing or the call fails. *)
Theorem testCloudinaryAPI_outcomes (w : World) (s : State) :
  exists s',
    testCloudinaryAPI w s = Normal tt s'
    /\ let cloudName := process_env w !! "CLODINARY_CLOUD_NAME" in
       let apiKey := process_env w !! "CLODINARY_API_KEY" in
       let apiSecret := process_env w !! "CLODINARY_API_SECRET_KEY" in
       if truthy cloudName && truthy apiKey && truthy apiSecret
       then match cloudinary_usage w (str cloudName) (str apiKey) (str apiSecret) with
            | Fulfilled _ =>
                testsPassed s' = testsPassed s + 1 /\ testsFailed s' = testsFailed s
            | Rejected _ =>
                testsPassed s' = testsPassed s /\ testsFailed s' = testsFailed s + 1
            end
       else testsPassed s' = testsPassed s /\ testsFailed s' = testsFailed s + 1.
Proof.
  destruct (testCloudinaryAPI_adds w s) as [s' [E [P F]]].
  exists s'. split; [exact E|]. cbv zeta.
  revert P F. unfold storage_counts.
  destruct (_ && _); [|cbn [fst snd]; lia].
  destruct (cloudinary_usage w _ _ _); cbn [fst snd]; lia.
Qed.



(** X3: when either secret is not set, the secrets check counts one failure
    and no pass, and prints that the secrets are not configured; the secret
    that is set is not measured. *)
Theorem testJWTSecrets_missing (w : World) (s : State) :
  truthy (process_env w !! "SECRET_KEY_ACCESS_TOKEN") = false
  \/ truthy (process_env w !! "SECRET_KEY_REFRESH_TOKEN") = false ->
  exists s',
    testJWTSecrets w s = Normal tt s'
    /\ testsPassed s' = testsPassed s
    /\ testsFailed s' = testsFailed s + 1
    /\ In (not_configured_line " JWT Secrets not configured") (console s').
Proof.
  intros H. unfold testJWTSecrets.
  rewrite (bind_normal _ _ _ _ _ (header_normal _ _ s)).
  destruct (truthy (process_env w !! "SECRET_KEY_ACCESS_TOKEN")),
           (truthy (process_env w !! "SECRET_KEY_REFRESH_TOKEN"));
    try (destruct H; discriminate); run;
    (eexists; split; [reflexivity|]); cbn [testsPassed testsFailed console];
    (split; [reflexivity|]); (split; [reflexivity|]);
    unfold not_configured_line; in_console.
Qed.

Lemma testJWTSecrets_missing_witness :
  20 <= js_length (str (only_refresh_env !! "SECRET_KEY_REFRESH_TOKEN"))
  /\ exists s',
       testJWTSecrets (calm only_refresh_env) initial = Normal tt s'
       /\ testsPassed s' = 0
       /\ testsFailed s' = 1
       /\ In (not_configured_line " JWT Secrets not configured") (console s').
Proof.
  split; [vm_compute; discriminate|].
  apply (testJWTSecrets_missing (calm only_refresh_env) initial).
  left. reflexivity.
Defined.

(** X4: each probe of the local server counts a pass for a 2xx answer, a
    failure when the request itself fails, and nothing for any other
    answer; [testAPIEndpoints] adds these up over its three endpoints, so it
    adds at most 3 to the counters together. *)
Theorem testAPIEndpoints_outcomes (w : World) (s : State) :
  Forall
    (fun endpoint =>
       exists s',
         endpoint_body w endpoint s = Normal tt s'
         /\ match probe w endpoint with
            | Fulfilled response =>
                if (200 <=? status response) && (status response <? 300)
                then testsPassed s' = testsPassed s + 1 /\ testsFailed s' = testsFailed s
                else testsPassed s' = testsPassed s /\ testsFailed s' = testsFailed s
            | Rejected _ =>
                testsPassed s' = testsPassed s /\ testsFailed s' = testsFailed s + 1
            end)
    endpoints
  /\ exists s',
       testAPIEndpoints w s = Normal tt s'
       /\ testsPassed s' = testsPassed s + fst (probes_counts w)
       /\ testsFailed s' = testsFailed s + snd (probes_counts w)
       /\ 0 <= fst (probes_counts w)
       /\ 0 <= snd (probes_counts w)
       /\ fst (probes_counts w) + snd (probes_counts w) <= 3.
Proof.
  split.
  - apply Forall_forall. intros endpoint _.
    destruct (endpoint_body_adds w endpoint s) as [s' [E [P F]]].
    exists s'. split; [exact E|].
    revert P F. unfold probe_counts.
    destruct (probe w endpoint) as [response|e]; [|cbn [fst snd]; lia].
    change ((200 <=? status response) && (status response <? 300)) with (ok response).
    destruct (ok response); cbn [fst snd]; lia.
  - destruct (testAPIEndpoints_adds w s) as [s' [E [P F]]].
    pose proof (probes_counts_bounds w).
    exists s'. split; [exact E|]. repeat split; lia.
Qed.

(** ** What the output shows *)

(** X9: the listing shows at most 4 characters of a sensitive value: a
    value longer than 4 characters is cut to its last 4, and a value of 4
    characters or fewer is shown whole after the stars. *)
Theorem displayValue_sensitive (envVar : EnvVar) (v : jsstring) :
  sensitive envVar = true ->
  v <> [] ->
  (length (displayValue envVar (Some v)) <= 7)%nat
  /\ ((length v <= 4)%nat -> displayValue envVar (Some v) = u "***" ++ v)
  /\ ((4 <= length v)%nat ->
      exists hidden shown,
        v = hidden ++ shown
        /\ length shown = 4%nat
        /\ displayValue envVar (Some v) = u "***" ++ shown).
Proof.
  intros Hs Hne. unfold displayValue.
  destruct v as [|c v']; [contradiction|]. cbn [truthy str]. rewrite Hs.
  rewrite (slice_last 4).
  remember (c :: v') as v eqn:Ev. clear Ev c v' Hne.
  split; [|split].
  - rewrite length_app, length_skipn. change (length (u "***")) with 3%nat. lia.
  - intros Hlen. f_equal.
    replace (length v - Pos.to_nat 4)%nat with 0%nat by lia. reflexivity.
  - intros Hlen.
    exists (firstn (length v - 4) v), (skipn (length v - 4) v).
    split; [symmetry; apply firstn_skipn|].
    split; [rewrite length_skipn; lia | reflexivity].
Qed.

Lemma displayValue_sensitive_witness :
  displayValue (mkEnvVar "STRIPE_SECRET_KEY" false true) (Some (u "sk_1"))
  = u "***sk_1".
Proof.
  apply (proj1 (proj2 (displayValue_sensitive
                         (mkEnvVar "STRIPE_SECRET_KEY" false true) (u "sk_1")
                         eq_refl ltac:(discriminate)))).
  vm_compute. lia.
Defined.

(** X10: after a successful connection the database check prints what lies
    between the first and the second [@] of the URI (to the end when there
    is one [@] only), and the word undefined when the URI has no [@]. *)
Theorem connected_to_line (w : World) (s : State) (uri : jsstring) :
  process_env w !! "MONGODB_URI" = Some uri ->
  uri <> [] ->
  mongoose_connect w uri = Fulfilled tt ->
  exists s' shown,
    testMongoDBConnection w s = Normal tt s'
    /\ In (colors green ++ (u "   Connected to: " ++ shown) ++ colors reset) (console s')
    /\ (~ In 64%N uri -> shown = u "undefined")
    /\ (forall a b, uri = a ++ 64%N :: b -> ~ In 64%N a -> ~ In 64%N b -> shown = b)
    /\ (forall a b rest,
          uri = a ++ 64%N :: b ++ 64%N :: rest -> ~ In 64%N a -> ~ In 64%N b ->
          shown = b).
Proof.
  intros Huri Hne Hconnect. unfold testMongoDBConnection.
  rewrite (bind_normal _ _ _ _ _ (header_normal _ _ s)), Huri.
  destruct uri as [|c uri']; [contradiction|]. cbn [truthy str]. run.
  rewrite Hconnect. run.
  remember (c :: uri') as uri eqn:Ev. clear Ev c uri' Hne Huri Hconnect.
  assert (Hshown :
    (~ In 64%N uri -> tpl (split_on 64 uri !! 1%nat) = u "undefined")
    /\ (forall a b, uri = a ++ 64%N :: b -> ~ In 64%N a -> ~ In 64%N b ->
                    tpl (split_on 64 uri !! 1%nat) = b)
    /\ (forall a b rest,
          uri = a ++ 64%N :: b ++ 64%N :: rest -> ~ In 64%N a -> ~ In 64%N b ->
          tpl (split_on 64 uri !! 1%nat) = b)).
  { split; [|split].
    - intros H. rewrite split_on_no_separator by exact H. reflexivity.
    - intros a b -> Ha Hb.
      rewrite split_on_first by exact Ha.
      rewrite split_on_no_separator by exact Hb. reflexivity.
    - intros a b rest -> Ha Hb.
      rewrite split_on_first by exact Ha.
      rewrite split_on_first by exact Hb. reflexivity. }
  destruct (mongoose_disconnect w) as [[]|e]; run;
    (eexists; exists (tpl (split_on 64 uri !! 1%nat)); split; [reflexivity|]);
    cbn [console]; (split; [in_console | exact Hshown]).
Qed.

Lemma connected_to_line_witness :
  exists s',
    testMongoDBConnection
      (calm at_sign_env)
      initial = Normal tt s'
    /\ In (colors green ++ (u "   Connected to: " ++ u "ss") ++ colors reset) (console s').
Proof.
  destruct (connected_to_line
              (calm at_sign_env)
              initial (u "mongodb://app:p@ss@db.example.net/campus")
              eq_refl ltac:(discriminate) eq_refl)
    as [s' [shown [E [Hin [_ [_ H]]]]]].
  exists s'. split; [exact E|].
  rewrite <- (H (u "mongodb://app:p") (u "ss") (u "db.example.net/campus") eq_refl).
  - exact Hin.
  - intros X. vm_compute in X.
    repeat (destruct X as [X | X]; [discriminate X|]). exact X.
  - intros X. vm_compute in X.
    repeat (destruct X as [X | X]; [discriminate X|]). exact X.
Defined.

Lemma starts_with_app (m rest : jsstring) : starts_with m (m ++ rest) = true.
Proof.
  induction m as [|a m IH]; [reflexivity|].
  cbn [app starts_with]. rewrite N.eqb_refl. exact IH.
Qed.

Lemma includes_app (m before after : jsstring) :
  includes m (before ++ m ++ after) = true.
Proof.
  induction before as [|a before IH].
  - cbn [app]. destruct (m ++ after) eqn:E; cbn [includes];
      rewrite <- E, starts_with_app; reflexivity.
  - cbn [app includes]. rewrite IH. apply orb_true_r.
Qed.

(** X11: the production case of the CORS check is a substring test: an
    origin that contains [vercel.app] or [campusbites] anywhere counts as a
    pass, whatever comes before and after. *)
Theorem production_origin_is_substring_test
    (w : World) (s : State) (marker before after : jsstring) :
  marker = u "vercel.app" \/ marker = u "campusbites" ->
  process_env w !! "FRONTEND_URL" = Some (before ++ marker ++ after) ->
  cors_class_of (process_env w !! "FRONTEND_URL") = CorsProduction
  /\ exists s',
       testCORSConfiguration w s = Normal tt s'
       /\ testsPassed s' = testsPassed s + 1
       /\ testsFailed s' = testsFailed s.
Proof.
  intros Hm Henv.
  assert (C : cors_class_of (process_env w !! "FRONTEND_URL") = CorsProduction).
  { rewrite Henv. unfold cors_class_of.
    assert (Hinc : includes marker (before ++ marker ++ after) = true)
      by apply includes_app.
    destruct (before ++ marker ++ after) as [|c url] eqn:E.
    { destruct Hm; subst marker; vm_compute in Hinc; discriminate. }
    cbn [truthy negb str].
    destruct (jsstring_eqb (c :: url) (u "http://localhost:5173")) eqn:Eq.
    { apply bool_decide_eq_true in Eq. rewrite Eq in Hinc.
      destruct Hm; subst marker; vm_compute in Hinc; discriminate. }
    destruct Hm; subst marker; rewrite Hinc; [reflexivity|].
    rewrite orb_true_r. reflexivity. }
  split; [exact C|].
  destruct (testCORSConfiguration_adds w s) as [s' [E [P F]]].
  exists s'. split; [exact E|].
  revert P F. unfold cors_counts. rewrite C. cbn [fst snd]. lia.
Qed.

Lemma production_origin_is_substring_test_witness :
  exists s',
    testCORSConfiguration (calm lookalike_env) initial = Normal tt s'
    /\ testsPassed s' = 1
    /\ testsFailed s' = 0.
Proof.
  apply (production_origin_is_substring_test (calm lookalike_env) initial
           (u "campusbites") (u "http://evil.example/?") []).
  - right. reflexivity.
  - reflexivity.
Defined.

(** ** The catch block of runAllTests *)

(** X12: when the [try] body of [runAllTests] throws, the script prints
    the fatal-error line and the message of the error after what was
    printed so far, leaves the counters as they were, and exits with status
    1; no report is printed by the handler. *)
Theorem fatal_error_handling (body : M unit) (w : World) (error : JsError) (s1 : State) :
  body (mkState 0 0 (banner_lines w)) = Abrupt error s1 ->
  script_with body w =
  Exit 1 (mkState (testsPassed s1) (testsFailed s1) (console s1 ++ fatal_lines error)).
Proof.
  intros H. unfold script_with, runAllTests_with, try_catch at 1.
  rewrite (bind_normal _ _ _ _ _ (banner_normal w initial)).
  change (mkState (testsPassed initial) (testsFailed initial)
            (console initial ++ banner_lines w))
    with (mkState 0 0 (banner_lines w)).
  unfold try_catch. rewrite H. run.
  unfold fatal_lines. rewrite <- !app_assoc. reflexivity.
Qed.

Lemma fatal_error_handling_witness :
  script_with (throwing_body (mkError None)) (calm sample_env) =
  Exit 1 (mkState 0 0 (banner_lines (calm sample_env) ++ fatal_lines (mkError None)))
  /\ In (colors red ++ u "undefined" ++ colors reset) (fatal_lines (mkError None)).
Proof.
  split.
  - apply (fatal_error_handling (throwing_body (mkError None)) (calm sample_env)
             (mkError None) (mkState 0 0 (banner_lines (calm sample_env)))).
    reflexivity.
  - right. left. reflexivity.
Defined.

(** ** More on the order routes *)

(** X13: a request that no binding matches runs no handler of the order
    router; a request that only the cash-on-delivery binding matches never
    reaches the order-details controller, and the other way round. *)
Theorem orderRouter_dispatch
    (Request : Type)
    (matches : OrderRoute.Binding -> Request -> bool)
    (calls_next : OrderRoute.Handler -> Request -> bool)
    (req : Request) :
  let cod := OrderRoute.mkBinding OrderRoute.POST "/cash-on-delivery"
               [OrderRoute.auth; OrderRoute.CashOnDeliveryOrderController] in
  let list := OrderRoute.mkBinding OrderRoute.GET "/order-list"
                [OrderRoute.auth; OrderRoute.getOrderDetailsController] in
  let ran := OrderRoute.handle matches calls_next OrderRoute.orderRouter req in
  match matches cod req, matches list req with
  | false, false => ran = []
  | true, false =>
      ~ In OrderRoute.getOrderDetailsController ran
      /\ (ran = [OrderRoute.auth]
          \/ ran = [OrderRoute.auth; OrderRoute.CashOnDeliveryOrderController])
  | false, true =>
      ~ In OrderRoute.CashOnDeliveryOrderController ran
      /\ (ran = [OrderRoute.auth]
          \/ ran = [OrderRoute.auth; OrderRoute.getOrderDetailsController])
  | true, true =>
      match ran with
      | first :: _ => first = OrderRoute.auth
      | [] => False
      end
  end.
Proof.
  cbv beta iota zeta delta
    [OrderRoute.orderRouter OrderRoute.get OrderRoute.post OrderRoute.Router
     OrderRoute.handle OrderRoute.run_stack OrderRoute.stack app].
  destruct (matches _ req), (matches _ req),
    (calls_next OrderRoute.auth req),
    (calls_next OrderRoute.CashOnDeliveryOrderController req),
    (calls_next OrderRoute.getOrderDetailsController req);
    cbn [app In];
    try reflexivity;
    (split; [intros H; repeat (destruct H as [H | H]; [discriminate H|]); exact H
            | first [left; reflexivity | right; reflexivity]]).
Qed.

(** ** The shape of the output *)

Lemma extends_refl (s : State) : extends s s.
Proof. exists []. split; [symmetry; apply app_nil_r | constructor]. Qed.

Lemma extends_trans (s1 s2 s3 : State) : extends s1 s2 -> extends s2 s3 -> extends s1 s3.
Proof.
  intros [a [Ea Fa]] [b [Eb Fb]]. exists (a ++ b). split.
  - rewrite Eb, Ea. symmetry. apply app_assoc.
  - apply Forall_app. split; assumption.
Qed.

Lemma orderly_ret {A} (a : A) : orderly (ret a).
Proof. intros s. apply extends_refl. Qed.

Lemma orderly_bind {A B} (m : M A) (k : A -> M B) :
  orderly m -> (forall a, orderly (k a)) -> orderly (bind m k).
Proof.
  intros Hm Hk s. specialize (Hm s). unfold bind.
  destruct (m s) as [a s1|e s1|c s1|]; try exact Hm.
  specialize (Hk a s1). destruct (k a s1); try exact I;
    exact (extends_trans _ _ _ Hm Hk).
Qed.

Lemma orderly_try_catch {A} (body : M A) (handler : JsError -> M A) :
  orderly body -> (forall e, orderly (handler e)) -> orderly (try_catch body handler).
Proof.
  intros Hb Hh s. specialize (Hb s). unfold try_catch.
  destruct (body s) as [a s1|e s1|c s1|]; try exact Hb.
  specialize (Hh e s1). destruct (handler e s1); try exact I;
    exact (extends_trans _ _ _ Hb Hh).
Qed.

Lemma orderly_log (msg : jsstring) (c : color) : orderly (log msg c).
Proof.
  intros s. exists [colors c ++ msg ++ colors reset]. split; [reflexivity|].
  constructor; [|constructor]. exists c, msg. reflexivity.
Qed.

Lemma orderly_await {A} (p : settled A) : orderly (await p).
Proof. intros s. destruct p; apply extends_refl. Qed.

Lemma orderly_defined {A} (o : option A) : orderly (defined o).
Proof. intros s. destruct o; [apply extends_refl | exact I]. Qed.

Lemma orderly_passed_incr : orderly passed_incr.
Proof. intros s. exists []. split; [symmetry; apply app_nil_r | constructor]. Qed.

Lemma orderly_failed_incr : orderly failed_incr.
Proof. intros s. exists []. split; [symmetry; apply app_nil_r | constructor]. Qed.

Lemma orderly_get_testsPassed : orderly get_testsPassed.
Proof. intros s. apply extends_refl. Qed.

Lemma orderly_get_testsFailed : orderly get_testsFailed.
Proof. intros s. apply extends_refl. Qed.

Lemma orderly_process_exit (code : Z) : orderly (process_exit code).
Proof. intros s. apply extends_refl. Qed.

Lemma orderly_for_each {A} (xs : list A) (f : A -> M unit) :
  (forall x, orderly (f x)) -> orderly (for_each xs f).
Proof.
  intros Hf. induction xs as [|x xs IH]; [apply orderly_ret|].
  cbn [for_each]. apply orderly_bind; [apply Hf | intros _; exact IH].
Qed.

Ltac orderly_steps :=
  repeat first
    [ apply orderly_log | apply orderly_ret | apply orderly_await
    | apply orderly_defined | apply orderly_passed_incr | apply orderly_failed_incr
    | apply orderly_get_testsPassed | apply orderly_get_testsFailed
    | apply orderly_process_exit
    | apply orderly_bind; [|intros ?]
    | apply orderly_try_catch; [|intros ?]
    | apply orderly_for_each; intros ?
    | match goal with |- orderly (if ?b then _ else _) => destruct b end ].

Lemma orderly_header (icon : jsstring) (title : string) : orderly (header icon title).
Proof. unfold header. orderly_steps. Qed.

Lemma orderly_checks (w : World) :
  orderly (testEnvironmentVariables w) /\ orderly (testMongoDBConnection w)
  /\ orderly (testCloudinaryAPI w) /\ orderly (testResendAPI w)
  /\ orderly (testJWTSecrets w) /\ orderly (testCORSConfiguration w)
  /\ orderly (testAPIEndpoints w) /\ orderly generateReport.
Proof.
  repeat split.
  - unfold testEnvironmentVariables. apply orderly_bind; [apply orderly_header|intros _].
    apply orderly_for_each. intros x. unfold envVar_callback. cbv zeta. orderly_steps.
  - unfold testMongoDBConnection. apply orderly_bind; [apply orderly_header|intros _].
    cbv zeta. orderly_steps.
  - unfold testCloudinaryAPI. apply orderly_bind; [apply orderly_header|intros _].
    cbv zeta. orderly_steps.
  - unfold testResendAPI. apply orderly_bind; [apply orderly_header|intros _].
    cbv zeta. orderly_steps.
  - unfold testJWTSecrets. apply orderly_bind; [apply orderly_header|intros _].
    cbv zeta. orderly_steps.
  - unfold testCORSConfiguration. apply orderly_bind; [apply orderly_header|intros _].
    cbv zeta. orderly_steps.
  - unfold testAPIEndpoints. apply orderly_bind; [apply orderly_header|intros _].
    apply orderly_for_each. intros x. unfold endpoint_body. cbv zeta. orderly_steps.
  - unfold generateReport. apply orderly_bind; [apply orderly_header|intros _].
    cbv zeta. orderly_steps.
Qed.

(** A run of [runAllTests] from the counters at zero, whatever was printed
    before it. *)
Lemma runAllTests_from (w : World) (before : list jsstring) :
  exists s', runAllTests w (mkState 0 0 before) = Normal tt s'.
Proof.
  destruct (checks_adds w (mkState 0 0 (before ++ banner_lines w))) as [s [E [P F]]].
  cbn [testsPassed testsFailed] in P, F.
  pose proof (run_counts_bounds w) as B.
  unfold runAllTests, runAllTests_with, try_catch.
  rewrite (bind_normal _ _ _ _ _ (banner_normal w (mkState 0 0 before))).
  cbn [testsPassed testsFailed console].
  rewrite all_checks_eq, (bind_normal _ _ _ _ _ E).
  destruct s as [p f c]. cbn [testsPassed testsFailed] in P, F.
  rewrite generateReport_agrees; [eexists; reflexivity|].
  apply report_agrees_small; lia.
Qed.

(** X14: all output of the checks goes through [log]: whatever the
    collaborators do, from whatever state and whatever was printed before,
    each check keeps the lines printed before it and adds only lines that
    start with a colour sequence and end with the reset sequence; so does
    [runAllTests] as a whole, started with the counters at zero after any
    earlier output. *)
Theorem output_is_wrapped_lines (w : World) :
  (forall s,
     Forall (fun check : M unit => exists s', check s = Normal tt s' /\ extends s s')
       [ testEnvironmentVariables w; testMongoDBConnection w; testCloudinaryAPI w;
         testResendAPI w; testJWTSecrets w; testCORSConfiguration w;
         testAPIEndpoints w ])
  /\ (forall before : list jsstring,
        exists s',
          runAllTests w (mkState 0 0 before) = Normal tt s'
          /\ extends (mkState 0 0 before) s').
Proof.
  destruct (orderly_checks w) as [O1 [O2 [O3 [O4 [O5 [O6 [O7 O8]]]]]]].
  split.
  - intros s. repeat constructor.
    + destruct (testEnvironmentVariables_grows w s) as [s' [E _]].
      exists s'. split; [exact E|]. specialize (O1 s). rewrite E in O1. exact O1.
    + destruct (testMongoDBConnection_grows w s) as [s' [E _]].
      exists s'. split; [exact E|]. specialize (O2 s). rewrite E in O2. exact O2.
    + destruct (testCloudinaryAPI_grows w s) as [s' [E _]].
      exists s'. split; [exact E|]. specialize (O3 s). rewrite E in O3. exact O3.
    + destruct (testResendAPI_grows w s) as [s' [E _]].
      exists s'. split; [exact E|]. specialize (O4 s). rewrite E in O4. exact O4.
    + destruct (testJWTSecrets_grows w s) as [s' [E _]].
      exists s'. split; [exact E|]. specialize (O5 s). rewrite E in O5. exact O5.
    + destruct (testCORSConfiguration_grows w s) as [s' [E _]].
      exists s'. split; [exact E|]. specialize (O6 s). rewrite E in O6. exact O6.
    + destruct (testAPIEndpoints_grows w s) as [s' [E _]].
      exists s'. split; [exact E|]. specialize (O7 s). rewrite E in O7. exact O7.
  - intros before.
    destruct (runAllTests_from w before) as [s' R].
    exists s'. split; [exact R|].
    assert (O : orderly (runAllTests w)).
    { unfold runAllTests, runAllTests_with.
      apply orderly_bind; [unfold banner; orderly_steps | intros _].
      apply orderly_try_catch; [|intros e; orderly_steps].
      unfold all_checks.
      repeat (apply orderly_bind; [assumption | intros _]). assumption. }
    specialize (O (mkState 0 0 before)). rewrite R in O. exact O.
Qed.

(** X15: in a run, five counted failures are always too many: the verdict
    is the critical one whenever the run ends with 5 failures or more. *)
Theorem five_failures_are_critical (w : World) :
  5 <= snd (run_counts w) ->
  exists s',
    script w = Normal tt s'
    /\ testsFailed s' = snd (run_counts w)
    /\ In (verdict_line CriticalFailures) (console s').
Proof.
  intros H5.
  destruct (script_outcome w) as [s [_ [_ [_ R]]]].
  pose proof (run_counts_bounds w) as B.
  eexists. split; [exact R|]. cbn [testsFailed console]. split; [reflexivity|].
  replace (spec_verdict (fst (run_counts w)) (snd (run_counts w)))
    with CriticalFailures; [apply report_has_verdict|].
  unfold spec_verdict, rate_at_least_80.
  destruct (snd (run_counts w) =? 0) eqn:E0; [lia|].
  destruct (80 * _ <=? _) eqn:E80; [lia | reflexivity].
Qed.

Lemma five_failures_are_critical_witness :
  exists s',
    script (unreachable full_env) = Normal tt s'
    /\ testsFailed s' = 6
    /\ In (verdict_line CriticalFailures) (console s').
Proof.
  apply (five_failures_are_critical (unreachable full_env)).
  vm_compute. discriminate.
Defined.
